(** * iot-kit sensor drivers: SHT31 (temperature / humidity) and VL6180X
      (distance / ambient light) over an I2C bus.

    Shallow embedding of [src/sensor/SHT31.py], [src/sensor/SHT31_modified.py]
    and [src/sensor/VL6180.py].

    Modelling conventions.
    - Python [int] is [Z]; Python [float] is modelled by exact rational
      arithmetic in [Q] (rounding of binary64 is not modelled, so equalities
      between readings are stated with [==]).
    - The I2C adapter, the devices behind it and the pseudo random generator
      form the environment: a state of an arbitrary type [T] and one
      transition per [smbus2] / [random] entry point ([Env]).
    - Every environment call and every [sleep] is appended to a trace, so
      that "what was done on the bus, in which order" can be stated.
    - Exceptions are a result type; [try ... except (TimeoutError, OSError)]
      is [try_except], which lets every other exception through.
    - Calls to the logger do not influence control flow and are left out. *)

From Stdlib Require Import ZArith QArith Lqa List Lia Bool.
Import ListNotations.

Set Implicit Arguments.

Local Open Scope Z_scope.

(** ** Exceptions and results *)

Inductive exn : Type :=
| OSError (errno : Z)
| TimeoutError
| IndexError
| TypeError.

(** The handlers of the drivers are all [except (TimeoutError, OSError)]. *)
Definition is_transport_error (e : exn) : bool :=
  match e with
  | OSError _ | TimeoutError => true
  | IndexError | TypeError => false
  end.

Inductive result (A : Type) : Type :=
| Ok (a : A)
| Raise (e : exn).

Arguments Ok {A} a.
Arguments Raise {A} e.

(** ** Observable events *)

Inductive event : Type :=
| EvOpen (busno : Z)
| EvWriteBlock (addr reg : Z) (data : list Z)
| EvReadBlock (addr reg len : Z)
| EvReadByte (addr : Z)
| EvReadByteData (addr reg : Z)
| EvWriteByteData (addr reg val : Z)
| EvSleep (secs : Q)
| EvRandom.

(** ** The environment: [smbus2.SMBus] and [random.random] *)

Record Env (T : Type) : Type := {
  env_open : Z -> T -> result unit * T;
  env_write_i2c_block_data : Z -> Z -> list Z -> T -> result unit * T;
  env_read_i2c_block_data : Z -> Z -> Z -> T -> result (list Z) * T;
  env_read_byte : Z -> T -> result Z * T;
  env_read_byte_data : Z -> Z -> T -> result Z * T;
  env_write_byte_data : Z -> Z -> Z -> T -> result unit * T;
  env_random : T -> Q * T
}.

Record world (T : Type) : Type := {
  env_state : T;
  trace : list event
}.

(** ** A state and exception monad over the world *)

Definition M (T A : Type) : Type := world T -> result A * world T.

Definition ret {T A} (a : A) : M T A := fun w => (Ok a, w).

Definition raise {T A} (e : exn) : M T A := fun w => (Raise e, w).

Definition bind {T A B} (m : M T A) (k : A -> M T B) : M T B :=
  fun w =>
    match m w with
    | (Ok a, w') => k a w'
    | (Raise e, w') => (Raise e, w')
    end.

Notation "x <- m ;; k" := (bind m (fun x => k))
  (at level 61, m at next level, right associativity).
Notation "m ;;; k" := (bind m (fun _ => k))
  (at level 61, right associativity).

(** [try: m except (TimeoutError, OSError) as e: h e] *)
Definition try_except {T A} (m : M T A) (h : exn -> M T A) : M T A :=
  fun w =>
    match m w with
    | (Ok a, w') => (Ok a, w')
    | (Raise e, w') =>
        if is_transport_error e then h e w' else (Raise e, w')
    end.

(** [try: m except Exception as e: h e] catches every exception of the model. *)
Definition try_except_Exception {T A} (m : M T A) (h : exn -> M T A) : M T A :=
  fun w =>
    match m w with
    | (Ok a, w') => (Ok a, w')
    | (Raise e, w') => h e w'
    end.

(** An environment call: the event is recorded, then the environment moves. *)
Definition call {T A} (ev : event) (f : T -> result A * T) : M T A :=
  fun w =>
    let (r, s) := f (env_state w) in
    (r, {| env_state := s; trace := trace w ++ [ev] |}).

Definition sleep {T} (secs : Q) : M T unit :=
  fun w => (Ok tt, {| env_state := env_state w;
                      trace := trace w ++ [EvSleep secs] |}).

(** [range n] *)
Definition range (n : nat) : list Z := map Z.of_nat (seq 0 n).

(** [data[i]] on a Python list, for the non-negative indices the drivers use. *)
Definition getitem {T} (data : list Z) (i : nat) : M T Z :=
  match nth_error data i with
  | Some b => ret b
  | None => raise IndexError
  end.

Section Library.
Context {T : Type} (env : Env T).

Definition SMBus (busno : Z) : M T unit :=
  call (EvOpen busno) (env_open env busno).

Definition write_i2c_block_data (addr reg : Z) (data : list Z) : M T unit :=
  call (EvWriteBlock addr reg data) (env_write_i2c_block_data env addr reg data).

Definition read_i2c_block_data (addr reg len : Z) : M T (list Z) :=
  call (EvReadBlock addr reg len) (env_read_i2c_block_data env addr reg len).

Definition read_byte (addr : Z) : M T Z :=
  call (EvReadByte addr) (env_read_byte env addr).

Definition read_byte_data (addr reg : Z) : M T Z :=
  call (EvReadByteData addr reg) (env_read_byte_data env addr reg).

Definition write_byte_data (addr reg val : Z) : M T unit :=
  call (EvWriteByteData addr reg val) (env_write_byte_data env addr reg val).

(** [random.random()] *)
Definition random : M T Q :=
  call EvRandom (fun s => let (r, s') := env_random env s in (Ok r, s')).

(** [random.uniform(a, b)] is [a + (b - a) * random()]. *)
Definition uniform (a b : Q) : M T Q :=
  r <- random ;; ret (a + (b - a) * r)%Q.
End Library.

(** ** src/sensor/SHT31.py *)

Module SHT31.
Definition ADDRESS : Z := 0x44.
Definition COMMAND_MEAS_CLKST : Z := 0x2C.
Definition COMMAND_MEAS_HIGHREP : list Z := [0x06].

Record t : Type := { _address : Z; _test_mode : bool }.

Definition max_retries : Z := 3.

Section Methods.
Context {T : Type} (env : Env T).

Definition __init__ (address : Z) (test_mode : bool) : M T t :=
  if negb test_mode then
    SMBus env 1 ;;;
    ret {| _address := address; _test_mode := test_mode |}
  else
    ret {| _address := address; _test_mode := test_mode |}.

Definition read (self : t) (register : Z) : M T Z :=
  if _test_mode self then ret 0xFF
  else b <- read_byte_data env (_address self) register ;;
       ret (Z.land b 0xFF).

Definition read_list (self : t) (register length : Z) : M T (list Z) :=
  if _test_mode self then ret [0x67; 0x89; 0xAB; 0x80; 0x12; 0xCD]
  else read_i2c_block_data env (_address self) register length.

Definition write (self : t) (register value : Z) : M T unit :=
  if _test_mode self then ret tt
  else write_byte_data env (_address self) register (Z.land value 0xFF).

Definition write_list (self : t) (register : Z) (data : list Z) : M T unit :=
  if _test_mode self then ret tt
  else write_i2c_block_data env (_address self) register data.

(** The body of the [try] block, lines 71-83. *)
Definition attempt_body (self : t) (attempt : Z) : M T (option (Q * Q)) :=
  (if 0 <? attempt then sleep (2 # 10)%Q else ret tt) ;;;
  write_list self 0x2C [0x10] ;;;
  sleep (if 0 <? attempt then 1 else 5 # 10)%Q ;;;
  data <- read_list self 0x00 6 ;;
  d0 <- getitem data 0 ;;
  d1 <- getitem data 1 ;;
  let temperature := (inject_Z (-45) + inject_Z (175 * (d0 * 256 + d1)) / 65535)%Q in
  d3 <- getitem data 3 ;;
  d4 <- getitem data 4 ;;
  let humidity := (inject_Z (100 * (d3 * 256 + d4)) / 65535)%Q in
  ret (Some (temperature, humidity)).

(** [for attempt in range(max_retries): try: ... except ...]; a loop that
    runs out of attempts falls through and the method returns [None]. *)
Fixpoint retry_loop (self : t) (attempts : list Z) : M T (option (Q * Q)) :=
  match attempts with
  | [] => ret None
  | attempt :: rest =>
      try_except (attempt_body self attempt)
        (fun e => if attempt =? max_retries - 1 then raise e
                  else retry_loop self rest)
  end.

Definition get_temperature_humidity (self : t) : M T (option (Q * Q)) :=
  if _test_mode self then
    r1 <- uniform env (-5)%Q 15%Q ;;
    let temperature := (20 + r1)%Q in
    r2 <- uniform env (-20)%Q 30%Q ;;
    let humidity := (50 + r2)%Q in
    ret (Some (temperature, humidity))
  else retry_loop self (range (Z.to_nat max_retries)).

(** [temperature, humidity = self.get_temperature_humidity()] *)
Definition unpack (r : option (Q * Q)) : M T (Q * Q) :=
  match r with
  | Some p => ret p
  | None => raise TypeError
  end.

Definition get_temperature (self : t) : M T Q :=
  r <- get_temperature_humidity self ;;
  p <- unpack r ;;
  ret (fst p).

Definition get_humidity (self : t) : M T Q :=
  r <- get_temperature_humidity self ;;
  p <- unpack r ;;
  ret (snd p).

(** [while True:] of [debug], lines 170-173, cut off after [fuel] rounds (the
    loop itself only ends by an exception). *)
Fixpoint debug_loop (sensor : t) (interval : Z) (fuel : nat) : M T unit :=
  match fuel with
  | O => ret tt
  | S fuel' =>
      r <- get_temperature_humidity sensor ;;
      _ <- unpack r ;;
      sleep (inject_Z interval) ;;;
      debug_loop sensor interval fuel'
  end.

(** [debug()] with [args.interval = interval] and [args.test = test]; the
    sensor is constructed before the [try]. [KeyboardInterrupt] is not
    modelled. *)
Definition debug (interval : Z) (test : bool) (fuel : nat) : M T unit :=
  sensor <- __init__ ADDRESS test ;;
  try_except_Exception (debug_loop sensor interval fuel) (fun _ => ret tt).
End Methods.
End SHT31.

(** ** src/sensor/SHT31_modified.py *)

Module SHT31_modified.
Definition ADDRESS : Z := 0x44.
Definition COMMAND_MEAS_CLKST : Z := 0x2C.
Definition COMMAND_MEAS_HIGHREP : list Z := [0x06].

Record t : Type := { _address : Z; _test_mode : bool }.

Section Methods.
Context {T : Type} (env : Env T).

Definition __init__ (address : Z) (test_mode : bool) : M T t :=
  if negb test_mode then
    SMBus env 1 ;;;
    ret {| _address := address; _test_mode := test_mode |}
  else
    ret {| _address := address; _test_mode := test_mode |}.

Definition read (self : t) (register : Z) : M T Z :=
  if _test_mode self then ret 0xFF
  else b <- read_byte_data env (_address self) register ;;
       ret (Z.land b 0xFF).

Definition read_list (self : t) (register length : Z) : M T (list Z) :=
  if _test_mode self then ret [0x67; 0x89; 0xAB; 0x80; 0x12; 0xCD]
  else read_i2c_block_data env (_address self) register length.

Definition write (self : t) (register value : Z) : M T unit :=
  if _test_mode self then ret tt
  else write_byte_data env (_address self) register (Z.land value 0xFF).

Definition write_list (self : t) (register : Z) (data : list Z) : M T unit :=
  if _test_mode self then ret tt
  else write_i2c_block_data env (_address self) register data.

Definition get_temperature_humidity (self : t) : M T (Q * Q) :=
  if _test_mode self then
    r1 <- uniform env (-5)%Q 15%Q ;;
    let temperature := (20 + r1)%Q in
    r2 <- uniform env (-20)%Q 30%Q ;;
    let humidity := (50 + r2)%Q in
    ret (temperature, humidity)
  else
    (* the handler only logs and re-raises *)
    try_except
      (write_list self COMMAND_MEAS_CLKST COMMAND_MEAS_HIGHREP ;;;
       sleep (5 # 10)%Q ;;;
       data <- read_list self 0x00 6 ;;
       d0 <- getitem data 0 ;;
       d1 <- getitem data 1 ;;
       let temperature := (inject_Z (-45) + inject_Z (175 * (d0 * 256 + d1)) / 65535)%Q in
       d3 <- getitem data 3 ;;
       d4 <- getitem data 4 ;;
       let humidity := (inject_Z (100 * (d3 * 256 + d4)) / 65535)%Q in
       ret (temperature, humidity))
      (fun e => raise e).

Definition get_temperature (self : t) : M T Q :=
  p <- get_temperature_humidity self ;;
  ret (fst p).

Definition get_humidity (self : t) : M T Q :=
  p <- get_temperature_humidity self ;;
  ret (snd p).
End Methods.
End SHT31_modified.


(** ** src/sensor/VL6180.py *)

Module VL6180X.
Definition ADDRESS : Z := 0x29.

Definition COMMAND_SYSTEM_FRESH_OUT_OF_RESET : Z := 0x0016.
Definition COMMAND_SYSRANGE_START : Z := 0x0018.
Definition COMMAND_RESULT_RANGE_VAL : Z := 0x0062.
Definition COMMAND_SYSTEM_INTERRUPT_CLEAR : Z := 0x0015.
Definition COMMAND_SYSALS_START : Z := 0x0038.
Definition COMMAND_RESULT_ALS_VAL : Z := 0x0050.

Record t : Type := { _address : Z; _test_mode : bool }.

Definition max_retries : Z := 3.

(** The private registers written when the device is fresh out of reset,
    lines 48-77, in program order. *)
Definition private_registers : list (Z * Z) :=
  [ (0x0207, 0x01); (0x0208, 0x01); (0x0096, 0x00); (0x0097, 0xFD);
    (0x00E3, 0x00); (0x00E4, 0x04); (0x00E5, 0x02); (0x00E6, 0x01);
    (0x00E7, 0x03); (0x00F5, 0x02); (0x00D9, 0x05); (0x00DB, 0xCE);
    (0x00DC, 0x03); (0x00DD, 0xF8); (0x009F, 0x00); (0x00A3, 0x3C);
    (0x00B7, 0x00); (0x00BB, 0x3C); (0x00B2, 0x09); (0x00CA, 0x09);
    (0x0198, 0x01); (0x01B0, 0x17); (0x01AD, 0x00); (0x00FF, 0x05);
    (0x0100, 0x05); (0x0199, 0x05); (0x01A6, 0x1B); (0x01AC, 0x3E);
    (0x01A7, 0x1F); (0x0030, 0x00) ].

(** The public registers written inside the [try] block, lines 81-87. *)
Definition public_registers : list (Z * Z) :=
  [ (0x0011, 0x10); (0x010A, 0x30); (0x003F, 0x46); (0x0031, 0xFF) ].

(** The writes after the loop, lines 107-133: [W8] is [write_byte],
    [W16] is [write_byte16]. *)
Inductive reg_write : Type :=
| W8 (register16 data : Z)
| W16 (register16 data16 : Z).

Definition trailing_registers : list reg_write :=
  [ W8 0x0040 0x63; W8 0x002E 0x01; W8 0x001B 0x09; W8 0x003E 0x31;
    W8 0x0014 0x24; W8 0x016 0x00; W8 0x001C 0x32;
    W8 0x002D (Z.lor 0x10 0x01); W16 0x0022 0x7B; W16 0x0040 0x64;
    W8 0x3F 0x20; W8 0x0120 0x01 ].

Section Methods.
Context {T : Type} (env : Env T).

Definition read (self : t) (register16 : Z) : M T Z :=
  if _test_mode self then
    if register16 =? COMMAND_SYSTEM_FRESH_OUT_OF_RESET then ret 1
    else ret 0xFF
  else
    let a1 := Z.land (Z.shiftr register16 8) 0xFF in
    let a0 := Z.land register16 0xFF in
    write_i2c_block_data env (_address self) a1 [a0] ;;;
    read_byte env (_address self).

Definition read16 (self : t) (register16 : Z) : M T Z :=
  if _test_mode self then ret 0xFFFF
  else
    let a1 := Z.land (Z.shiftr register16 8) 0xFF in
    let a0 := Z.land register16 0xFF in
    write_i2c_block_data env (_address self) a1 [a0] ;;;
    data16h <- read_byte env (_address self) ;;
    data16l <- read_byte env (_address self) ;;
    ret (Z.lor (Z.shiftl data16h 8) (Z.land data16l 0xFF)).

Definition write_byte (self : t) (register16 data : Z) : M T unit :=
  if _test_mode self then ret tt
  else
    let a1 := Z.land (Z.shiftr register16 8) 0xFF in
    let a0 := Z.land register16 0xFF in
    write_i2c_block_data env (_address self) a1 [a0; Z.land data 0xFF].

Definition write_byte16 (self : t) (register16 data16 : Z) : M T unit :=
  if _test_mode self then ret tt
  else
    let a1 := Z.land (Z.shiftr register16 8) 0xFF in
    let a0 := Z.land register16 0xFF in
    let d1 := Z.land (Z.shiftr data16 8) 0xFF in
    let d0 := Z.land data16 0xFF in
    write_i2c_block_data env (_address self) a1 [a0; d1; d0].

(** A run of consecutive [self.write_byte(reg, val)] statements. *)
Fixpoint write_bytes (self : t) (regs : list (Z * Z)) : M T unit :=
  match regs with
  | [] => ret tt
  | (register16, data) :: rest =>
      write_byte self register16 data ;;; write_bytes self rest
  end.

Definition write_reg (self : t) (w : reg_write) : M T unit :=
  match w with
  | W8 register16 data => write_byte self register16 data
  | W16 register16 data16 => write_byte16 self register16 data16
  end.

Fixpoint write_regs (self : t) (regs : list reg_write) : M T unit :=
  match regs with
  | [] => ret tt
  | w :: rest => write_reg self w ;;; write_regs self rest
  end.

(** The body of the [try] block of the constructor, lines 43-91. *)
Definition init_body (self : t) (attempt : Z) : M T unit :=
  (if 0 <? attempt then sleep (5 # 10)%Q else ret tt) ;;;
  fresh <- read self COMMAND_SYSTEM_FRESH_OUT_OF_RESET ;;
  (if fresh =? 1 then write_bytes self private_registers else ret tt) ;;;
  write_bytes self public_registers.

(** [for attempt in range(max_retries)]: a successful body ends in [break];
    the handler re-raises on the last attempt and continues otherwise. *)
Fixpoint init_loop (self : t) (attempts : list Z) : M T unit :=
  match attempts with
  | [] => ret tt
  | attempt :: rest =>
      try_except (init_body self attempt)
        (fun e => if attempt =? max_retries - 1 then raise e
                  else init_loop self rest)
  end.

Definition __init__ (address : Z) (test_mode : bool) : M T t :=
  let self := {| _address := address; _test_mode := test_mode |} in
  if negb test_mode then
    SMBus env 1 ;;;
    init_loop self (range (Z.to_nat max_retries)) ;;;
    write_regs self trailing_registers ;;;
    ret self
  else ret self.

Definition get_distance (self : t) : M T Q :=
  if _test_mode self then uniform env 10%Q 200%Q
  else
    try_except
      (write_byte self COMMAND_SYSRANGE_START 0x01 ;;;
       sleep (1 # 10)%Q ;;;
       distance <- read self COMMAND_RESULT_RANGE_VAL ;;
       write_byte self COMMAND_SYSTEM_INTERRUPT_CLEAR 0x07 ;;;
       ret (inject_Z distance))
      (fun e => raise e).

Definition get_light (self : t) : M T Q :=
  if _test_mode self then uniform env (1 # 10)%Q 10%Q
  else
    try_except
      (write_byte self COMMAND_SYSALS_START 0x01 ;;;
       sleep (5 # 10)%Q ;;;
       light <- read16 self COMMAND_RESULT_ALS_VAL ;;
       write_byte self COMMAND_SYSTEM_INTERRUPT_CLEAR 0x07 ;;;
       ret (inject_Z light * (32 # 100) * 100 / inject_Z (32 * 100))%Q)
      (fun e => raise e).

(** [while True:] of [debug], lines 267-271, cut off after [fuel] rounds. *)
Fixpoint debug_loop (sensor : t) (interval : Z) (fuel : nat) : M T unit :=
  match fuel with
  | O => ret tt
  | S fuel' =>
      _ <- get_distance sensor ;;
      _ <- get_light sensor ;;
      sleep (inject_Z interval) ;;;
      debug_loop sensor interval fuel'
  end.

(** [debug()] with [args.interval = interval] and [args.test = test]; the
    sensor is constructed inside the [try]. [KeyboardInterrupt] is not
    modelled. *)
Definition debug (interval : Z) (test : bool) (fuel : nat) : M T unit :=
  try_except_Exception
    (sensor <- __init__ ADDRESS test ;;
     debug_loop sensor interval fuel)
    (fun _ => ret tt).
End Methods.
End VL6180X.


(** ** A scripted environment

    The [n]-th bus call (counted from 0) raises the exception paired with [n] in
    [failing]; every other call succeeds.  Block reads return [block], byte
    reads consume [bytes] (0 once exhausted), and the [k]-th random draw is
    [(k mod 10) / 10]. *)

Module Stub.
Record state : Type := {
  calls : nat;
  failing : list (nat * exn);
  block : list Z;
  bytes : list Z;
  draws : nat
}.

Definition bump (s : state) : state :=
  {| calls := S (calls s); failing := failing s; block := block s;
     bytes := bytes s; draws := draws s |}.

Definition step {A : Type} (ok : state -> A * state) (s : state)
  : result A * state :=
  match find (fun p => Nat.eqb (fst p) (calls s)) (failing s) with
  | Some (_, e) => (Raise e, bump s)
  | None => let (a, s') := ok (bump s) in (Ok a, s')
  end.

Definition next_byte (s : state) : Z * state :=
  (hd 0 (bytes s),
   {| calls := calls s; failing := failing s; block := block s;
      bytes := tl (bytes s); draws := draws s |}).

Definition draw (s : state) : Q * state :=
  (Z.of_nat (draws s) mod 10 # 10,
   {| calls := calls s; failing := failing s; block := block s;
      bytes := bytes s; draws := S (draws s) |}).

Definition env : Env state := {|
  env_open := fun _ => step (fun s => (tt, s));
  env_write_i2c_block_data := fun _ _ _ => step (fun s => (tt, s));
  env_read_i2c_block_data := fun _ _ _ => step (fun s => (block s, s));
  env_read_byte := fun _ => step next_byte;
  env_read_byte_data := fun _ _ => step next_byte;
  env_write_byte_data := fun _ _ _ => step (fun s => (tt, s));
  env_random := draw
|}.

Definition init (failing : list (nat * exn)) (block bytes : list Z) : state :=
  {| calls := 0; failing := failing; block := block; bytes := bytes;
     draws := 0 |}.

(** The state [s] once [n] bus calls have been made. *)
Definition at_call (n : nat) (s : state) : state :=
  {| calls := n; failing := failing s; block := block s; bytes := bytes s;
     draws := draws s |}.

Definition start (s : state) : world state :=
  {| env_state := s; trace := [] |}.
End Stub.

(** ** Vocabulary of the statements *)

(** The two temperature / humidity drivers, called in hardware mode. *)
Inductive variant : Type := WithRetry | Plain.

Definition command_of (v : variant) : list Z :=
  match v with
  | WithRetry => [0x10]
  | Plain => SHT31_modified.COMMAND_MEAS_HIGHREP
  end.

Definition is_measure_command (ev : event) : bool :=
  match ev with
  | EvWriteBlock _ reg _ => reg =? 0x2C
  | _ => false
  end.

(** Number of measurement commands sent, i.e. of attempts made. *)
Definition attempts_in (tr : list event) : nat :=
  length (filter is_measure_command tr).

Definition is_bus_event (ev : event) : bool :=
  match ev with
  | EvSleep _ | EvRandom => false
  | _ => true
  end.

Definition is_sleep (ev : event) : bool :=
  match ev with
  | EvSleep _ => true
  | _ => false
  end.

Definition is_read_byte (ev : event) : bool :=
  match ev with
  | EvReadByte _ => true
  | _ => false
  end.

Definition count (p : event -> bool) (tr : list event) : nat :=
  length (filter p tr).

(** The bus traffic and the pause of one [get_distance] call that meets no
    error, in order. *)
Definition distance_steps (addr : Z) : list event :=
  [ EvWriteBlock addr 0x00 [0x18; 0x01];
    EvSleep (1 # 10);
    EvWriteBlock addr 0x00 [0x62];
    EvReadByte addr;
    EvWriteBlock addr 0x00 [0x15; 0x07] ].

(** What one attempt of [SHT31.get_temperature_humidity] puts on the trace
    before the block read. *)
Definition attempt_prefix (addr attempt : Z) : list event :=
  (if 0 <? attempt then [EvSleep (2 # 10)] else []) ++
  [EvWriteBlock addr 0x2C [0x10];
   EvSleep (if 0 <? attempt then 1 else 5 # 10)%Q].

(** The block write that [VL6180X.write_byte] and [VL6180X.write_byte16]
    send for a register write. *)
Definition encode_write_byte (addr : Z) (p : Z * Z) : event :=
  EvWriteBlock addr (Z.land (Z.shiftr (fst p) 8) 0xFF)
    [Z.land (fst p) 0xFF; Z.land (snd p) 0xFF].

Definition encode_reg_write (addr : Z) (w : VL6180X.reg_write) : event :=
  match w with
  | VL6180X.W8 register16 data => encode_write_byte addr (register16, data)
  | VL6180X.W16 register16 data16 =>
      EvWriteBlock addr (Z.land (Z.shiftr register16 8) 0xFF)
        [Z.land register16 0xFF; Z.land (Z.shiftr data16 8) 0xFF;
         Z.land data16 0xFF]
  end.

(** The bus traffic of one pass through the constructor's [try] block that
    meets no error: the reset check, the private registers when the device
    is fresh out of reset, the four public registers. *)
Definition init_attempt_events (addr : Z) (fresh : bool) : list event :=
  [EvWriteBlock addr 0x00 [0x16]; EvReadByte addr] ++
  (if fresh then map (encode_write_byte addr) VL6180X.private_registers
   else []) ++
  map (encode_write_byte addr) VL6180X.public_registers.

(** The writes that follow the loop. *)
Definition trailing_events (addr : Z) : list event :=
  map (encode_reg_write addr) VL6180X.trailing_registers.

Definition is_block_write (ev : event) : bool :=
  match ev with
  | EvWriteBlock _ _ _ => true
  | _ => false
  end.

(** The bus traffic of a reset check that fails: in the address write or,
    the register once addressed, in the byte read. *)
Definition failed_reset_check_events (addr : Z) (in_read : bool) : list event :=
  EvWriteBlock addr 0x00 [0x16] :: (if in_read then [EvReadByte addr] else []).

(** No scripted failure of the stub lies ahead, and no byte is queued. *)
Definition stub_settled (s : Stub.state) : Prop :=
  forallb (fun p => Nat.ltb (fst p) (Stub.calls s)) (Stub.failing s) = true /\
  Stub.bytes s = [].

Section Vocabulary.
Context {T : Type} (env : Env T).

Definition measure (v : variant) (addr : Z) : M T (option (Q * Q)) :=
  match v with
  | WithRetry =>
      SHT31.get_temperature_humidity env
        {| SHT31._address := addr; SHT31._test_mode := false |}
  | Plain =>
      p <- SHT31_modified.get_temperature_humidity env
             {| SHT31_modified._address := addr;
                SHT31_modified._test_mode := false |} ;;
      ret (Some p)
  end.

(** From bus state [s] the measurement command is accepted and the block
    read returns [data], leaving the bus in [s']. *)
Definition attempt_succeeds (addr : Z) (cmd : list Z) (s : T)
    (data : list Z) (s' : T) : Prop :=
  exists s1,
    env_write_i2c_block_data env addr 0x2C cmd s = (Ok tt, s1) /\
    env_read_i2c_block_data env addr 0x00 6 s1 = (Ok data, s').

(** From bus state [s] the attempt fails with the transport error [e], in
    the command write or in the block read, leaving the bus in [s']. *)
Definition attempt_fails (addr : Z) (cmd : list Z) (s : T)
    (e : exn) (s' : T) : Prop :=
  is_transport_error e = true /\
  (env_write_i2c_block_data env addr 0x2C cmd s = (Raise e, s') \/
   exists s1,
     env_write_i2c_block_data env addr 0x2C cmd s = (Ok tt, s1) /\
     env_read_i2c_block_data env addr 0x00 6 s1 = (Raise e, s')).

(** Every draw of [random.random()] lies in [[0, 1)]. *)
Definition random_in_unit : Prop :=
  forall s, (0 <= fst (env_random env s) /\ fst (env_random env s) < 1)%Q.
(** From bus state [s] the reset check of the constructor fails with the
    transport error [e], in the byte read when [in_read] and in the address
    write otherwise, leaving the bus in [s']. *)
Definition reset_check_fails (addr : Z) (s : T) (e : exn) (in_read : bool)
    (s' : T) : Prop :=
  is_transport_error e = true /\
  if in_read then
    exists s1,
      env_write_i2c_block_data env addr 0x00 [0x16] s = (Ok tt, s1) /\
      env_read_byte env addr s1 = (Raise e, s')
  else env_write_i2c_block_data env addr 0x00 [0x16] s = (Raise e, s').

(** From every state that satisfies [Inv] the bus accepts any block write
    and answers a byte read at [addr] with [fresh], and [Inv] is kept. *)
Definition reliable_from (addr fresh : Z) (Inv : T -> Prop) : Prop :=
  (forall s a r d, Inv s ->
     exists s', env_write_i2c_block_data env a r d s = (Ok tt, s') /\ Inv s') /\
  (forall s, Inv s ->
     exists s', env_read_byte env addr s = (Ok fresh, s') /\ Inv s').
End Vocabulary.

(** * Properties *)

(** ** Running the monad *)

Lemma bind_ok {T A B} (m : M T A) (k : A -> M T B) w a w' :
  m w = (Ok a, w') -> bind m k w = k a w'.
Proof. intros H. unfold bind. rewrite H. reflexivity. Qed.

Lemma bind_raise {T A B} (m : M T A) (k : A -> M T B) w e w' :
  m w = (Raise e, w') -> bind m k w = (Raise e, w').
Proof. intros H. unfold bind. rewrite H. reflexivity. Qed.

Lemma call_eq {T A} ev (f : T -> result A * T) s tr r s' :
  f s = (r, s') ->
  call ev f {| env_state := s; trace := tr |} =
    (r, {| env_state := s'; trace := tr ++ [ev] |}).
Proof. intros H. unfold call. cbn [env_state trace]. rewrite H. reflexivity. Qed.

Lemma try_except_ok {T A} (m : M T A) h w a w' :
  m w = (Ok a, w') -> try_except m h w = (Ok a, w').
Proof. intros H. unfold try_except. rewrite H. reflexivity. Qed.

Lemma try_except_caught {T A} (m : M T A) h w e w' :
  m w = (Raise e, w') -> is_transport_error e = true ->
  try_except m h w = h e w'.
Proof. intros H He. unfold try_except. rewrite H, He. reflexivity. Qed.

Lemma try_except_uncaught {T A} (m : M T A) h w e w' :
  m w = (Raise e, w') -> is_transport_error e = false ->
  try_except m h w = (Raise e, w').
Proof. intros H He. unfold try_except. rewrite H, He. reflexivity. Qed.

Lemma attempts_in_app tr1 tr2 :
  attempts_in (tr1 ++ tr2) = (attempts_in tr1 + attempts_in tr2)%nat.
Proof. unfold attempts_in. rewrite filter_app, length_app. reflexivity. Qed.

Lemma range_3 : range 3 = [0; 1; 2].
Proof. reflexivity. Qed.

(** ** One attempt of [SHT31.get_temperature_humidity] *)

Section SHT31_attempt.
Context {T : Type} (env : Env T).
Variable addr : Z.

Let self := {| SHT31._address := addr; SHT31._test_mode := false |}.

Lemma attempt_body_ok attempt s s' tr d0 d1 d2 d3 d4 rest :
  attempt_succeeds env addr [0x10] s (d0 :: d1 :: d2 :: d3 :: d4 :: rest) s' ->
  SHT31.attempt_body env self attempt {| env_state := s; trace := tr |} =
    (Ok (Some ((inject_Z (-45) + inject_Z (175 * (d0 * 256 + d1)) / 65535)%Q,
               (inject_Z (100 * (d3 * 256 + d4)) / 65535)%Q)),
     {| env_state := s';
        trace := tr ++ attempt_prefix addr attempt ++ [EvReadBlock addr 0x00 6] |}).
Proof.
  intros (s1 & Hw & Hr).
  unfold SHT31.attempt_body, attempt_prefix, SHT31.write_list, SHT31.read_list,
    write_i2c_block_data, read_i2c_block_data.
  cbn [SHT31._test_mode SHT31._address self].
  destruct (0 <? attempt);
    cbv beta iota zeta delta [bind sleep ret env_state trace];
    unfold call; cbn [env_state trace]; rewrite Hw;
    cbn [env_state trace]; rewrite Hr; cbn [getitem nth_error ret];
    rewrite <- ?app_assoc; reflexivity.
Qed.

Lemma attempt_body_fails attempt s s' tr e :
  attempt_fails env addr [0x10] s e s' ->
  exists evs,
    SHT31.attempt_body env self attempt {| env_state := s; trace := tr |} =
      (Raise e, {| env_state := s'; trace := tr ++ evs |}) /\
    attempts_in evs = 1%nat.
Proof.
  intros (_ & [Hw | (s1 & Hw & Hr)]).
  - exists ((if 0 <? attempt then [EvSleep (2 # 10)] else []) ++
            [EvWriteBlock addr 0x2C [0x10]]).
    split; [|destruct (0 <? attempt); reflexivity].
    unfold SHT31.attempt_body, SHT31.write_list, write_i2c_block_data.
    cbn [SHT31._test_mode SHT31._address self].
    destruct (0 <? attempt);
      cbv beta iota zeta delta [bind sleep ret env_state trace];
      unfold call; cbn [env_state trace]; rewrite Hw;
      rewrite <- ?app_assoc; reflexivity.
  - exists (attempt_prefix addr attempt ++ [EvReadBlock addr 0x00 6]).
    split; [|unfold attempt_prefix; destruct (0 <? attempt); reflexivity].
    unfold SHT31.attempt_body, attempt_prefix, SHT31.write_list,
      SHT31.read_list, write_i2c_block_data, read_i2c_block_data.
    cbn [SHT31._test_mode SHT31._address self].
    destruct (0 <? attempt);
      cbv beta iota zeta delta [bind sleep ret env_state trace];
      unfold call; cbn [env_state trace]; rewrite Hw;
      cbn [env_state trace]; rewrite Hr;
      rewrite <- ?app_assoc; reflexivity.
Qed.
End SHT31_attempt.

(** ** Decoding arithmetic *)

Lemma temperature_formula raw :
  (inject_Z (-45) + inject_Z (175 * raw) / 65535 ==
   -45 + 175 * inject_Z raw / 65535)%Q.
Proof.
  rewrite inject_Z_mult. change (inject_Z 175) with 175%Q.
  change (inject_Z (-45)) with (-45)%Q. reflexivity.
Qed.
Lemma humidity_formula raw :
  (inject_Z (100 * raw) / 65535 == 100 * inject_Z raw / 65535)%Q.
Proof. rewrite inject_Z_mult. reflexivity. Qed.
Lemma temperature_increasing raw1 raw2 :
  raw1 < raw2 ->
  (inject_Z (-45) + inject_Z (175 * raw1) / 65535 <
   inject_Z (-45) + inject_Z (175 * raw2) / 65535)%Q.
Proof.
  intros H.
  apply Qplus_lt_r. unfold Qdiv. apply Qmult_lt_compat_r; [reflexivity|].
  rewrite <- Zlt_Qlt. lia.
Qed.

(** ** The retry loop of [SHT31.get_temperature_humidity] *)

Section SHT31_retry.
Context {T : Type} (env : Env T).
Variable addr : Z.

Let self := {| SHT31._address := addr; SHT31._test_mode := false |}.

Lemma retry_loop_done attempt rest w r w' :
  SHT31.attempt_body env self attempt w = (Ok r, w') ->
  SHT31.retry_loop env self (attempt :: rest) w = (Ok r, w').
Proof. intros H. cbn [SHT31.retry_loop]. now apply try_except_ok. Qed.

Lemma retry_loop_again attempt rest w e w' :
  SHT31.attempt_body env self attempt w = (Raise e, w') ->
  is_transport_error e = true ->
  attempt <> 2 ->
  SHT31.retry_loop env self (attempt :: rest) w =
    SHT31.retry_loop env self rest w'.
Proof.
  intros H He Hn. cbn [SHT31.retry_loop].
  erewrite try_except_caught by eassumption.
  unfold SHT31.max_retries.
  destruct (Z.eqb_spec attempt (3 - 1)); [lia | reflexivity].
Qed.

Lemma retry_loop_exhausted rest w e w' :
  SHT31.attempt_body env self 2 w = (Raise e, w') ->
  is_transport_error e = true ->
  SHT31.retry_loop env self (2 :: rest) w = (Raise e, w').
Proof.
  intros H He. cbn [SHT31.retry_loop].
  erewrite try_except_caught by eassumption. reflexivity.
Qed.

Lemma hardware_call w :
  SHT31.get_temperature_humidity env self w =
    SHT31.retry_loop env self [0; 1; 2] w.
Proof. reflexivity. Qed.

(** First attempt answered: one attempt, the decoded sample is returned. *)
Lemma success_at_once s s' tr d0 d1 d2 d3 d4 rest :
  attempt_succeeds env addr [0x10] s (d0 :: d1 :: d2 :: d3 :: d4 :: rest) s' ->
  exists evs,
    SHT31.get_temperature_humidity env self {| env_state := s; trace := tr |} =
      (Ok (Some ((inject_Z (-45) + inject_Z (175 * (d0 * 256 + d1)) / 65535)%Q,
                 (inject_Z (100 * (d3 * 256 + d4)) / 65535)%Q)),
       {| env_state := s'; trace := tr ++ evs |}) /\
    attempts_in evs = 1%nat.
Proof.
  intros H. eexists. split.
  - rewrite hardware_call.
    apply retry_loop_done. eapply attempt_body_ok. exact H.
  - reflexivity.
Qed.

(** Two failed attempts, then an answered one. *)
Lemma success_after_two_failures s0 s1 s2 s3 e1 e2 tr d0 d1 d2 d3 d4 rest :
  attempt_fails env addr [0x10] s0 e1 s1 ->
  attempt_fails env addr [0x10] s1 e2 s2 ->
  attempt_succeeds env addr [0x10] s2 (d0 :: d1 :: d2 :: d3 :: d4 :: rest) s3 ->
  exists evs,
    SHT31.get_temperature_humidity env self {| env_state := s0; trace := tr |} =
      (Ok (Some ((inject_Z (-45) + inject_Z (175 * (d0 * 256 + d1)) / 65535)%Q,
                 (inject_Z (100 * (d3 * 256 + d4)) / 65535)%Q)),
       {| env_state := s3; trace := tr ++ evs |}) /\
    attempts_in evs = 3%nat.
Proof.
  intros F1 F2 S3.
  pose proof (proj1 F1) as T1. pose proof (proj1 F2) as T2.
  destruct (attempt_body_fails 0 tr F1) as (ev1 & B1 & N1).
  destruct (attempt_body_fails 1 (tr ++ ev1) F2) as (ev2 & B2 & N2).
  pose proof (attempt_body_ok 2 ((tr ++ ev1) ++ ev2) S3) as B3.
  exists (ev1 ++ ev2 ++ attempt_prefix addr 2 ++ [EvReadBlock addr 0 6]).
  split.
  - rewrite hardware_call.
    erewrite retry_loop_again by (eassumption || lia).
    erewrite retry_loop_again by (eassumption || lia).
    erewrite retry_loop_done by eassumption.
    rewrite <- !app_assoc. reflexivity.
  - rewrite !attempts_in_app, N1, N2. reflexivity.
Qed.

(** Three failed attempts: the last error is re-raised. *)
Lemma failure_after_three s0 s1 s2 s3 e1 e2 e3 tr :
  attempt_fails env addr [0x10] s0 e1 s1 ->
  attempt_fails env addr [0x10] s1 e2 s2 ->
  attempt_fails env addr [0x10] s2 e3 s3 ->
  exists evs,
    SHT31.get_temperature_humidity env self {| env_state := s0; trace := tr |} =
      (Raise e3, {| env_state := s3; trace := tr ++ evs |}) /\
    attempts_in evs = 3%nat.
Proof.
  intros F1 F2 F3.
  pose proof (proj1 F1) as T1. pose proof (proj1 F2) as T2.
  pose proof (proj1 F3) as T3.
  destruct (attempt_body_fails 0 tr F1) as (ev1 & B1 & N1).
  destruct (attempt_body_fails 1 (tr ++ ev1) F2) as (ev2 & B2 & N2).
  destruct (attempt_body_fails 2 ((tr ++ ev1) ++ ev2) F3)
    as (ev3 & B3 & N3).
  exists (ev1 ++ ev2 ++ ev3). split.
  - rewrite hardware_call.
    erewrite retry_loop_again by (eassumption || lia).
    erewrite retry_loop_again by (eassumption || lia).
    erewrite retry_loop_exhausted by eassumption.
    rewrite <- !app_assoc. reflexivity.
  - rewrite !attempts_in_app, N1, N2, N3. reflexivity.
Qed.
End SHT31_retry.

(** ** The two drivers on an answered first attempt *)

Section SHT31_variants.
Context {T : Type} (env : Env T).

Lemma plain_success addr s s' tr d0 d1 d2 d3 d4 rest :
  attempt_succeeds env addr [0x06] s (d0 :: d1 :: d2 :: d3 :: d4 :: rest) s' ->
  SHT31_modified.get_temperature_humidity env
    {| SHT31_modified._address := addr; SHT31_modified._test_mode := false |}
    {| env_state := s; trace := tr |} =
    (Ok ((inject_Z (-45) + inject_Z (175 * (d0 * 256 + d1)) / 65535)%Q,
         (inject_Z (100 * (d3 * 256 + d4)) / 65535)%Q),
     {| env_state := s';
        trace := tr ++ [EvWriteBlock addr 0x2C [0x06]; EvSleep (5 # 10);
                        EvReadBlock addr 0x00 6] |}).
Proof.
  intros (s1 & Hw & Hr).
  unfold SHT31_modified.get_temperature_humidity.
  cbn [SHT31_modified._test_mode].
  apply try_except_ok.
  unfold SHT31_modified.write_list, SHT31_modified.read_list,
    write_i2c_block_data, read_i2c_block_data,
    SHT31_modified.COMMAND_MEAS_CLKST, SHT31_modified.COMMAND_MEAS_HIGHREP.
  cbn [SHT31_modified._test_mode SHT31_modified._address].
  cbv beta iota zeta delta [bind sleep ret env_state trace].
  unfold call; cbn [env_state trace]; rewrite Hw.
  cbn [env_state trace]; rewrite Hr; cbn [getitem nth_error ret].
  rewrite <- ?app_assoc; reflexivity.
Qed.

Lemma measure_answered v addr s s' tr d0 d1 d2 d3 d4 rest :
  attempt_succeeds env addr (command_of v) s
    (d0 :: d1 :: d2 :: d3 :: d4 :: rest) s' ->
  exists w',
    measure env v addr {| env_state := s; trace := tr |} =
      (Ok (Some ((inject_Z (-45) + inject_Z (175 * (d0 * 256 + d1)) / 65535)%Q,
                 (inject_Z (100 * (d3 * 256 + d4)) / 65535)%Q)), w').
Proof.
  intros H. destruct v; cbn [command_of measure] in *.
  - destruct (success_at_once tr H)
    as (evs & E & _).
    eexists. exact E.
  - eexists. erewrite bind_ok by (eapply plain_success; exact H).
    reflexivity.
Qed.

(** C1: in both drivers the temperature decoded from data bytes 0 and 1 is
    [-45 + 175 * (hi * 256 + lo) / 65535]; of two samples, the one with the
    larger raw value decodes to the larger temperature; raw 0 decodes to -45
    and raw 65535 to 130. *)
Theorem C1_temperature_decoding :
  forall v1 v2 addr1 addr2 (s1 s1' s2 s2' : T) tr1 tr2
         hi1 lo1 ca1 hh1 hl1 cb1 hi2 lo2 ca2 hh2 hl2 cb2,
    0 <= hi1 <= 255 -> 0 <= lo1 <= 255 ->
    0 <= hi2 <= 255 -> 0 <= lo2 <= 255 ->
    attempt_succeeds env addr1 (command_of v1) s1
      [hi1; lo1; ca1; hh1; hl1; cb1] s1' ->
    attempt_succeeds env addr2 (command_of v2) s2
      [hi2; lo2; ca2; hh2; hl2; cb2] s2' ->
    exists t1 h1 w1 t2 h2 w2,
      measure env v1 addr1 {| env_state := s1; trace := tr1 |} =
        (Ok (Some (t1, h1)), w1) /\
      measure env v2 addr2 {| env_state := s2; trace := tr2 |} =
        (Ok (Some (t2, h2)), w2) /\
      (t1 == -45 + 175 * inject_Z (hi1 * 256 + lo1) / 65535)%Q /\
      (hi1 * 256 + lo1 < hi2 * 256 + lo2 -> (t1 < t2)%Q) /\
      (hi1 * 256 + lo1 = 0 -> (t1 == -45)%Q) /\
      (hi1 * 256 + lo1 = 65535 -> (t1 == 130)%Q).
Proof.
  intros v1 v2 addr1 addr2 s1 s1' s2 s2' tr1 tr2
         hi1 lo1 ca1 hh1 hl1 cb1 hi2 lo2 ca2 hh2 hl2 cb2 _ _ _ _ A1 A2.
  destruct (measure_answered v1 tr1 A1)
    as (w1 & E1).
  destruct (measure_answered v2 tr2 A2)
    as (w2 & E2).
  do 6 eexists. split; [exact E1|]. split; [exact E2|].
  split; [apply temperature_formula|].
  split; [apply temperature_increasing|].
  split; intros ->; reflexivity.
Qed.

(** C2: in both drivers the humidity decoded from data bytes 3 and 4 is
    [100 * (hi * 256 + lo) / 65535], raw 0 decodes to 0 and raw 65535 to 100;
    two samples that differ only in bytes 2 and 5 decode to the same pair. *)
Theorem C2_humidity_decoding :
  forall v1 v2 addr1 addr2 (s1 s1' s2 s2' : T) tr1 tr2
         th tl hi lo ca cb ca' cb',
    0 <= hi <= 255 -> 0 <= lo <= 255 ->
    attempt_succeeds env addr1 (command_of v1) s1 [th; tl; ca; hi; lo; cb] s1' ->
    attempt_succeeds env addr2 (command_of v2) s2 [th; tl; ca'; hi; lo; cb'] s2' ->
    exists t h w1 w2,
      measure env v1 addr1 {| env_state := s1; trace := tr1 |} =
        (Ok (Some (t, h)), w1) /\
      measure env v2 addr2 {| env_state := s2; trace := tr2 |} =
        (Ok (Some (t, h)), w2) /\
      (h == 100 * inject_Z (hi * 256 + lo) / 65535)%Q /\
      (hi * 256 + lo = 0 -> (h == 0)%Q) /\
      (hi * 256 + lo = 65535 -> (h == 100)%Q).
Proof.
  intros v1 v2 addr1 addr2 s1 s1' s2 s2' tr1 tr2 th tl hi lo ca cb ca' cb'
         _ _ A1 A2.
  destruct (measure_answered v1 tr1 A1)
    as (w1 & E1).
  destruct (measure_answered v2 tr2 A2)
    as (w2 & E2).
  do 4 eexists. split; [exact E1|]. split; [exact E2|].
  split; [apply humidity_formula|].
  split; intros ->; reflexivity.
Qed.

(** C10: on the same 6-byte sample the driver with retry and the driver
    without retry return the same (temperature, humidity) pair. *)
Theorem C10_variants_decode_alike :
  forall addr1 addr2 (s1 s1' s2 s2' : T) tr1 tr2 b0 b1 b2 b3 b4 b5,
    attempt_succeeds env addr1 [0x10] s1 [b0; b1; b2; b3; b4; b5] s1' ->
    attempt_succeeds env addr2 [0x06] s2 [b0; b1; b2; b3; b4; b5] s2' ->
    exists p w1 w2,
      SHT31.get_temperature_humidity env
        {| SHT31._address := addr1; SHT31._test_mode := false |}
        {| env_state := s1; trace := tr1 |} = (Ok (Some p), w1) /\
      SHT31_modified.get_temperature_humidity env
        {| SHT31_modified._address := addr2;
           SHT31_modified._test_mode := false |}
        {| env_state := s2; trace := tr2 |} = (Ok p, w2).
Proof.
  intros addr1 addr2 s1 s1' s2 s2' tr1 tr2 b0 b1 b2 b3 b4 b5 A1 A2.
  destruct (success_at_once tr1 A1)
    as (evs & E1 & _).
  do 3 eexists. split; [exact E1|].
  eapply plain_success. exact A2.
Qed.
End SHT31_variants.

(** ** Retry behaviour of [SHT31.get_temperature_humidity] *)

Section SHT31_retry_claims.
Context {T : Type} (env : Env T).

(** C4: when the first two attempts fail with a transport error and the
    third is answered, the call returns the reading decoded from the third
    attempt's sample, raises nothing, and has made exactly three attempts. *)
Theorem C4_two_failures_then_reading :
  forall addr (s0 s1 s2 s3 : T) e1 e2 tr b0 b1 b2 b3 b4 b5,
    attempt_fails env addr [0x10] s0 e1 s1 ->
    attempt_fails env addr [0x10] s1 e2 s2 ->
    attempt_succeeds env addr [0x10] s2 [b0; b1; b2; b3; b4; b5] s3 ->
    exists t h evs,
      SHT31.get_temperature_humidity env
        {| SHT31._address := addr; SHT31._test_mode := false |}
        {| env_state := s0; trace := tr |} =
        (Ok (Some (t, h)), {| env_state := s3; trace := tr ++ evs |}) /\
      (t == -45 + 175 * inject_Z (b0 * 256 + b1) / 65535)%Q /\
      (h == 100 * inject_Z (b3 * 256 + b4) / 65535)%Q /\
      attempts_in evs = 3%nat.
Proof.
  intros addr s0 s1 s2 s3 e1 e2 tr b0 b1 b2 b3 b4 b5 F1 F2 S3.
  destruct (success_after_two_failures tr F1 F2 S3)
    as (evs & E & N).
  exists (inject_Z (-45) + inject_Z (175 * (b0 * 256 + b1)) / 65535)%Q,
         (inject_Z (100 * (b3 * 256 + b4)) / 65535)%Q, evs.
  split; [exact E|].
  split; [apply temperature_formula|].
  split; [apply humidity_formula|exact N].
Qed.

(** C5: when all three attempts fail with a transport error, the call raises
    the error of the third failure after exactly three attempts; the next
    call on the same driver starts over: it returns a reading at once when
    its first attempt is answered, and still makes up to three attempts. *)
Theorem C5_three_failures_raise_last :
  forall addr (s0 s1 s2 s3 : T) e1 e2 e3 tr,
    attempt_fails env addr [0x10] s0 e1 s1 ->
    attempt_fails env addr [0x10] s1 e2 s2 ->
    attempt_fails env addr [0x10] s2 e3 s3 ->
    let self := {| SHT31._address := addr; SHT31._test_mode := false |} in
    exists evs w',
      SHT31.get_temperature_humidity env self
        {| env_state := s0; trace := tr |} = (Raise e3, w') /\
      w' = {| env_state := s3; trace := tr ++ evs |} /\
      attempts_in evs = 3%nat /\
      (forall s4 b0 b1 b2 b3 b4 b5,
          attempt_succeeds env addr [0x10] s3 [b0; b1; b2; b3; b4; b5] s4 ->
          exists p evs',
            SHT31.get_temperature_humidity env self w' =
              (Ok (Some p), {| env_state := s4; trace := trace w' ++ evs' |}) /\
            attempts_in evs' = 1%nat) /\
      (forall s4 s5 s6 e4 e5 b0 b1 b2 b3 b4 b5,
          attempt_fails env addr [0x10] s3 e4 s4 ->
          attempt_fails env addr [0x10] s4 e5 s5 ->
          attempt_succeeds env addr [0x10] s5 [b0; b1; b2; b3; b4; b5] s6 ->
          exists p evs',
            SHT31.get_temperature_humidity env self w' =
              (Ok (Some p), {| env_state := s6; trace := trace w' ++ evs' |}) /\
            attempts_in evs' = 3%nat).
Proof.
  intros addr s0 s1 s2 s3 e1 e2 e3 tr F1 F2 F3 self.
  destruct (failure_after_three tr F1 F2 F3)
    as (evs & E & N).
  exists evs. eexists. split; [exact E|]. split; [reflexivity|].
  split; [exact N|]. split.
  - intros s4 b0 b1 b2 b3 b4 b5 S4.
    destruct (success_at_once (tr ++ evs) S4)
    as (evs' & E' & N').
    eexists. exists evs'. split; [exact E'|exact N'].
  - intros s4 s5 s6 e4 e5 b0 b1 b2 b3 b4 b5 F4 F5 S6.
    destruct (success_after_two_failures (tr ++ evs) F4 F5 S6)
    as (evs' & E' & N').
    eexists. exists evs'. split; [exact E'|exact N'].
Qed.
End SHT31_retry_claims.

(** Concrete runs on the scripted environment. *)

Lemma C1_temperature_decoding_witness :
  exists t1 h1 w1 t2 h2 w2,
    measure Stub.env WithRetry 0x44
      (Stub.start (Stub.init [] [0x67; 0x89; 0xAB; 0x80; 0x12; 0xCD] [])) =
      (Ok (Some (t1, h1)), w1) /\
    measure Stub.env Plain 0x44
      (Stub.start (Stub.init [] [0xFF; 0xFF; 0x00; 0x00; 0x00; 0x00] [])) =
      (Ok (Some (t2, h2)), w2) /\
    (t1 == -45 + 175 * inject_Z (0x67 * 256 + 0x89) / 65535)%Q /\
    (0x67 * 256 + 0x89 < 0xFF * 256 + 0xFF -> (t1 < t2)%Q) /\
    (0x67 * 256 + 0x89 = 0 -> (t1 == -45)%Q) /\
    (0x67 * 256 + 0x89 = 65535 -> (t1 == 130)%Q).
Proof.
  eapply (@C1_temperature_decoding _ Stub.env WithRetry Plain);
    try lia; eexists; split; reflexivity.
Defined.

Lemma C2_humidity_decoding_witness :
  exists t h w1 w2,
    measure Stub.env WithRetry 0x44
      (Stub.start (Stub.init [] [0x67; 0x89; 0xAB; 0xFF; 0xFF; 0xCD] [])) =
      (Ok (Some (t, h)), w1) /\
    measure Stub.env Plain 0x44
      (Stub.start (Stub.init [] [0x67; 0x89; 0x00; 0xFF; 0xFF; 0x11] [])) =
      (Ok (Some (t, h)), w2) /\
    (h == 100 * inject_Z (0xFF * 256 + 0xFF) / 65535)%Q /\
    (0xFF * 256 + 0xFF = 0 -> (h == 0)%Q) /\
    (0xFF * 256 + 0xFF = 65535 -> (h == 100)%Q).
Proof.
  eapply (@C2_humidity_decoding _ Stub.env WithRetry Plain);
    try lia; eexists; split; reflexivity.
Defined.

Lemma C10_variants_decode_alike_witness :
  exists p w1 w2,
    SHT31.get_temperature_humidity Stub.env
      {| SHT31._address := 0x44; SHT31._test_mode := false |}
      (Stub.start (Stub.init [] [0x67; 0x89; 0xAB; 0x80; 0x12; 0xCD] [])) =
      (Ok (Some p), w1) /\
    SHT31_modified.get_temperature_humidity Stub.env
      {| SHT31_modified._address := 0x44;
         SHT31_modified._test_mode := false |}
      (Stub.start (Stub.init [] [0x67; 0x89; 0xAB; 0x80; 0x12; 0xCD] [])) =
      (Ok p, w2).
Proof.
  eapply (@C10_variants_decode_alike _ Stub.env); eexists; split; reflexivity.
Defined.

Lemma C4_two_failures_then_reading_witness :
  exists t h evs,
    SHT31.get_temperature_humidity Stub.env
      {| SHT31._address := 0x44; SHT31._test_mode := false |}
      (Stub.start (Stub.init [(0%nat, OSError 5); (2%nat, TimeoutError)]
                     [0x67; 0x89; 0xAB; 0x80; 0x12; 0xCD] [])) =
      (Ok (Some (t, h)),
       {| env_state :=
            {| Stub.calls := 5;
               Stub.failing := [(0%nat, OSError 5); (2%nat, TimeoutError)];
               Stub.block := [0x67; 0x89; 0xAB; 0x80; 0x12; 0xCD];
               Stub.bytes := []; Stub.draws := 0 |};
          trace := [] ++ evs |}) /\
    (t == -45 + 175 * inject_Z (0x67 * 256 + 0x89) / 65535)%Q /\
    (h == 100 * inject_Z (0x80 * 256 + 0x12) / 65535)%Q /\
    attempts_in evs = 3%nat.
Proof.
  eapply (@C4_two_failures_then_reading _ Stub.env 0x44).
  - split; [|left; reflexivity]; reflexivity.
  - split; [|right; eexists; split; reflexivity]; reflexivity.
  - eexists. split; reflexivity.
Defined.

Lemma C5_three_failures_raise_last_witness :
  exists w',
    SHT31.get_temperature_humidity Stub.env
      {| SHT31._address := 0x44; SHT31._test_mode := false |}
      (Stub.start (Stub.init
                     [(0%nat, OSError 5); (2%nat, TimeoutError);
                      (3%nat, OSError 121)]
                     [0x67; 0x89; 0xAB; 0x80; 0x12; 0xCD] [])) =
      (Raise (OSError 121), w') /\
    attempts_in (trace w') = 3%nat.
Proof.
  pose (s0 := Stub.init [(0%nat, OSError 5); (2%nat, TimeoutError);
                         (3%nat, OSError 121)]
                [0x67; 0x89; 0xAB; 0x80; 0x12; 0xCD] []).
  destruct (@C5_three_failures_raise_last _ Stub.env 0x44
              s0 (Stub.at_call 1 s0) (Stub.at_call 3 s0) (Stub.at_call 4 s0)
              (OSError 5) TimeoutError (OSError 121) [])
    as (evs & w' & E & W & N & _).
  - split; [reflexivity|]. left. reflexivity.
  - split; [reflexivity|]. right. eexists. split; reflexivity.
  - split; [reflexivity|]. left. reflexivity.
  - exists w'. split; [exact E|]. rewrite W. exact N.
Defined.

(** ** VL6180X: register access *)

Lemma try_except_reraise {T A} (m : M T A) w :
  try_except m (fun e => raise e) w = m w.
Proof.
  unfold try_except, raise.
  destruct (m w) as [[a | e] w']; [reflexivity|].
  destruct (is_transport_error e); reflexivity.
Qed.

Lemma land_shiftl_low h l : 0 <= l < 256 -> Z.land (Z.shiftl h 8) l = 0.
Proof.
  intros Hl. apply Z.bits_inj'. intros n Hn.
  rewrite Z.land_spec, Z.bits_0.
  destruct (Z.ltb_spec n 8).
  - rewrite Z.shiftl_spec_low by lia. reflexivity.
  - replace (Z.testbit l n) with false; [apply andb_false_r|].
    symmetry. apply Z.bits_above_log2; [lia|].
    destruct (Z.eq_dec l 0) as [->|]; [cbn; lia|].
    apply Z.log2_lt_pow2; [lia|].
    apply Z.lt_le_trans with (2 ^ 8); [cbn; lia|].
    apply Z.pow_le_mono_r; lia.
Qed.

(** [(data16h << 8) | (data16l & 0xFF)] is the big-endian value of two bytes. *)
Lemma lor_shiftl_8 h l :
  0 <= l <= 255 ->
  Z.lor (Z.shiftl h 8) (Z.land l 0xFF) = h * 256 + l.
Proof.
  intros Hl.
  assert (El : Z.land l 0xFF = l).
  { change 0xFF with (Z.ones 8). rewrite Z.land_ones by lia.
    apply Z.mod_small. cbn. lia. }
  rewrite El.
  rewrite <- Z.lxor_lor by (apply land_shiftl_low; lia).
  rewrite <- Z.add_nocarry_lxor by (apply land_shiftl_low; lia).
  rewrite Z.shiftl_mul_pow2 by lia. reflexivity.
Qed.

Section VL6180X_access.
Context {T : Type} (env : Env T).
Variable addr : Z.

Let self := {| VL6180X._address := addr; VL6180X._test_mode := false |}.

Lemma write_byte_run register16 data s tr r s' :
  env_write_i2c_block_data env addr (Z.land (Z.shiftr register16 8) 0xFF)
    [Z.land register16 0xFF; Z.land data 0xFF] s = (r, s') ->
  VL6180X.write_byte env self register16 data
    {| env_state := s; trace := tr |} =
    (r, {| env_state := s';
           trace := tr ++ [EvWriteBlock addr (Z.land (Z.shiftr register16 8) 0xFF)
                             [Z.land register16 0xFF; Z.land data 0xFF]] |}).
Proof.
  intros H. unfold VL6180X.write_byte. cbn [VL6180X._test_mode self].
  apply call_eq. exact H.
Qed.

Lemma read_run register16 s s1 tr r s' :
  env_write_i2c_block_data env addr (Z.land (Z.shiftr register16 8) 0xFF)
    [Z.land register16 0xFF] s = (Ok tt, s1) ->
  env_read_byte env addr s1 = (r, s') ->
  VL6180X.read env self register16 {| env_state := s; trace := tr |} =
    (r, {| env_state := s';
           trace := tr ++ [EvWriteBlock addr (Z.land (Z.shiftr register16 8) 0xFF)
                             [Z.land register16 0xFF];
                           EvReadByte addr] |}).
Proof.
  intros Hw Hr. unfold VL6180X.read. cbn [VL6180X._test_mode self].
  unfold write_i2c_block_data, read_byte.
  erewrite bind_ok by (apply call_eq; exact Hw).
  erewrite call_eq by exact Hr. rewrite <- app_assoc. reflexivity.
Qed.

Lemma read_run_unaddressed register16 s tr e s' :
  env_write_i2c_block_data env addr (Z.land (Z.shiftr register16 8) 0xFF)
    [Z.land register16 0xFF] s = (Raise e, s') ->
  VL6180X.read env self register16 {| env_state := s; trace := tr |} =
    (Raise e,
     {| env_state := s';
        trace := tr ++ [EvWriteBlock addr (Z.land (Z.shiftr register16 8) 0xFF)
                          [Z.land register16 0xFF]] |}).
Proof.
  intros Hw. unfold VL6180X.read. cbn [VL6180X._test_mode self].
  unfold write_i2c_block_data.
  erewrite bind_raise by (apply call_eq; exact Hw). reflexivity.
Qed.
End VL6180X_access.

(** ** VL6180X: construction *)

(** C9: constructing the distance / light driver in test mode touches
    neither the bus nor anything else in the environment, and returns the
    driver without raising. *)
Theorem C9_test_mode_construction_is_silent :
  forall (T : Type) (env : Env T) addr (w : world T),
    VL6180X.__init__ env addr true w =
      (Ok {| VL6180X._address := addr; VL6180X._test_mode := true |}, w).
Proof. reflexivity. Qed.

(** C3 (the code departs from it): the device is not fresh out of reset,
    the reset check and the four writes inside the retry loop succeed, and
    the first write after the loop (register 0x0040) fails with an I/O
    error. The constructor raises that error at once: the reset check was
    made a single time and no back-off pause was taken. *)
Theorem C3_failure_after_loop_is_not_retried :
  let r := VL6180X.__init__ Stub.env 0x29 false
             (Stub.start (Stub.init [(7%nat, OSError 5)] [] [])) in
  fst r = Raise (OSError 5) /\
  count is_read_byte (trace (snd r)) = 1%nat /\
  count is_sleep (trace (snd r)) = 0%nat /\
  last (trace (snd r)) EvRandom = EvWriteBlock 0x29 0x00 [0x40; 0x63].
Proof. vm_compute. repeat split. Qed.

(** ** VL6180X: ranging *)

Section VL6180X_distance.
Context {T : Type} (env : Env T).

Lemma sleep_eq secs (s : T) tr :
  sleep secs {| env_state := s; trace := tr |} =
    (Ok tt, {| env_state := s; trace := tr ++ [EvSleep secs] |}).
Proof. reflexivity. Qed.

Lemma get_distance_ok addr (s0 s1 s2 s3 s4 : T) tr v :
  env_write_i2c_block_data env addr 0x00 [0x18; 0x01] s0 = (Ok tt, s1) ->
  env_write_i2c_block_data env addr 0x00 [0x62] s1 = (Ok tt, s2) ->
  env_read_byte env addr s2 = (Ok v, s3) ->
  env_write_i2c_block_data env addr 0x00 [0x15; 0x07] s3 = (Ok tt, s4) ->
  VL6180X.get_distance env
    {| VL6180X._address := addr; VL6180X._test_mode := false |}
    {| env_state := s0; trace := tr |} =
    (Ok (inject_Z v), {| env_state := s4; trace := tr ++ distance_steps addr |}).
Proof.
  intros H1 H2 H3 H4.
  unfold VL6180X.get_distance. cbn [VL6180X._test_mode].
  rewrite try_except_reraise.
  erewrite bind_ok by (apply write_byte_run; exact H1).
  erewrite bind_ok by apply sleep_eq.
  erewrite bind_ok by (eapply read_run; [exact H2 | exact H3]).
  erewrite bind_ok by (apply write_byte_run; exact H4).
  unfold ret, distance_steps. rewrite <- !app_assoc. reflexivity.
Qed.
End VL6180X_distance.

Section VL6180X_distance_claim.
Context {T : Type} (env : Env T).

(** The range-start write fails: nothing else is done. *)
Lemma get_distance_start_fails addr (s0 s1 : T) tr e :
  env_write_i2c_block_data env addr 0x00 [0x18; 0x01] s0 = (Raise e, s1) ->
  VL6180X.get_distance env
    {| VL6180X._address := addr; VL6180X._test_mode := false |}
    {| env_state := s0; trace := tr |} =
    (Raise e, {| env_state := s1;
                 trace := tr ++ firstn 1 (distance_steps addr) |}).
Proof.
  intros H1.
  unfold VL6180X.get_distance. cbn [VL6180X._test_mode].
  rewrite try_except_reraise.
  erewrite bind_raise by (apply write_byte_run; exact H1).
  reflexivity.
Qed.

(** The result register cannot be addressed. *)
Lemma get_distance_address_fails addr (s0 s1 s2 : T) tr e :
  env_write_i2c_block_data env addr 0x00 [0x18; 0x01] s0 = (Ok tt, s1) ->
  env_write_i2c_block_data env addr 0x00 [0x62] s1 = (Raise e, s2) ->
  VL6180X.get_distance env
    {| VL6180X._address := addr; VL6180X._test_mode := false |}
    {| env_state := s0; trace := tr |} =
    (Raise e, {| env_state := s2;
                 trace := tr ++ firstn 3 (distance_steps addr) |}).
Proof.
  intros H1 H2.
  unfold VL6180X.get_distance. cbn [VL6180X._test_mode].
  rewrite try_except_reraise.
  erewrite bind_ok by (apply write_byte_run; exact H1).
  erewrite bind_ok by apply sleep_eq.
  erewrite bind_raise by (apply read_run_unaddressed; exact H2).
  rewrite <- !app_assoc. reflexivity.
Qed.

(** The result byte cannot be read. *)
Lemma get_distance_read_fails addr (s0 s1 s2 s3 : T) tr e :
  env_write_i2c_block_data env addr 0x00 [0x18; 0x01] s0 = (Ok tt, s1) ->
  env_write_i2c_block_data env addr 0x00 [0x62] s1 = (Ok tt, s2) ->
  env_read_byte env addr s2 = (Raise e, s3) ->
  VL6180X.get_distance env
    {| VL6180X._address := addr; VL6180X._test_mode := false |}
    {| env_state := s0; trace := tr |} =
    (Raise e, {| env_state := s3;
                 trace := tr ++ firstn 4 (distance_steps addr) |}).
Proof.
  intros H1 H2 H3.
  unfold VL6180X.get_distance. cbn [VL6180X._test_mode].
  rewrite try_except_reraise.
  erewrite bind_ok by (apply write_byte_run; exact H1).
  erewrite bind_ok by apply sleep_eq.
  erewrite bind_raise by (eapply read_run; [exact H2 | exact H3]).
  rewrite <- !app_assoc. reflexivity.
Qed.

(** The interrupt-clear write fails. *)
Lemma get_distance_clear_fails addr (s0 s1 s2 s3 s4 : T) tr v e :
  env_write_i2c_block_data env addr 0x00 [0x18; 0x01] s0 = (Ok tt, s1) ->
  env_write_i2c_block_data env addr 0x00 [0x62] s1 = (Ok tt, s2) ->
  env_read_byte env addr s2 = (Ok v, s3) ->
  env_write_i2c_block_data env addr 0x00 [0x15; 0x07] s3 = (Raise e, s4) ->
  VL6180X.get_distance env
    {| VL6180X._address := addr; VL6180X._test_mode := false |}
    {| env_state := s0; trace := tr |} =
    (Raise e, {| env_state := s4; trace := tr ++ distance_steps addr |}).
Proof.
  intros H1 H2 H3 H4.
  unfold VL6180X.get_distance. cbn [VL6180X._test_mode].
  rewrite try_except_reraise.
  erewrite bind_ok by (apply write_byte_run; exact H1).
  erewrite bind_ok by apply sleep_eq.
  erewrite bind_ok by (eapply read_run; [exact H2 | exact H3]).
  erewrite bind_raise by (apply write_byte_run; exact H4).
  unfold distance_steps. rewrite <- !app_assoc. reflexivity.
Qed.

(** C7: in hardware mode [get_distance] writes 0x01 to the range-start
    register, sleeps 0.1 s, reads the range result register, writes 0x07 to
    the interrupt-clear register whatever value was read, and returns that
    value. When one of its four bus operations raises, the call raises that
    same exception at that point: the trace stops at the failing operation,
    so nothing is repeated and nothing further is sent. Conversely, the call
    raises only in one of these four ways. *)
Theorem C7_get_distance_sequence :
  forall addr (s0 : T) tr,
    let self := {| VL6180X._address := addr; VL6180X._test_mode := false |} in
    let w := {| env_state := s0; trace := tr |} in
    (forall s1 s2 s3 s4 v,
        env_write_i2c_block_data env addr 0x00 [0x18; 0x01] s0 = (Ok tt, s1) ->
        env_write_i2c_block_data env addr 0x00 [0x62] s1 = (Ok tt, s2) ->
        env_read_byte env addr s2 = (Ok v, s3) ->
        env_write_i2c_block_data env addr 0x00 [0x15; 0x07] s3 = (Ok tt, s4) ->
        VL6180X.get_distance env self w =
          (Ok (inject_Z v),
           {| env_state := s4; trace := tr ++ distance_steps addr |})) /\
    (forall e s1,
        env_write_i2c_block_data env addr 0x00 [0x18; 0x01] s0 = (Raise e, s1) ->
        VL6180X.get_distance env self w =
          (Raise e, {| env_state := s1;
                       trace := tr ++ firstn 1 (distance_steps addr) |})) /\
    (forall e s1 s2,
        env_write_i2c_block_data env addr 0x00 [0x18; 0x01] s0 = (Ok tt, s1) ->
        env_write_i2c_block_data env addr 0x00 [0x62] s1 = (Raise e, s2) ->
        VL6180X.get_distance env self w =
          (Raise e, {| env_state := s2;
                       trace := tr ++ firstn 3 (distance_steps addr) |})) /\
    (forall e s1 s2 s3,
        env_write_i2c_block_data env addr 0x00 [0x18; 0x01] s0 = (Ok tt, s1) ->
        env_write_i2c_block_data env addr 0x00 [0x62] s1 = (Ok tt, s2) ->
        env_read_byte env addr s2 = (Raise e, s3) ->
        VL6180X.get_distance env self w =
          (Raise e, {| env_state := s3;
                       trace := tr ++ firstn 4 (distance_steps addr) |})) /\
    (forall e s1 s2 s3 s4 v,
        env_write_i2c_block_data env addr 0x00 [0x18; 0x01] s0 = (Ok tt, s1) ->
        env_write_i2c_block_data env addr 0x00 [0x62] s1 = (Ok tt, s2) ->
        env_read_byte env addr s2 = (Ok v, s3) ->
        env_write_i2c_block_data env addr 0x00 [0x15; 0x07] s3 = (Raise e, s4) ->
        VL6180X.get_distance env self w =
          (Raise e, {| env_state := s4;
                       trace := tr ++ distance_steps addr |})) /\
    (forall e w',
        VL6180X.get_distance env self w = (Raise e, w') ->
        (env_write_i2c_block_data env addr 0x00 [0x18; 0x01] s0 =
           (Raise e, env_state w') /\
         trace w' = tr ++ firstn 1 (distance_steps addr)) \/
        (exists s1,
            env_write_i2c_block_data env addr 0x00 [0x18; 0x01] s0 = (Ok tt, s1) /\
            env_write_i2c_block_data env addr 0x00 [0x62] s1 =
              (Raise e, env_state w') /\
            trace w' = tr ++ firstn 3 (distance_steps addr)) \/
        (exists s1 s2,
            env_write_i2c_block_data env addr 0x00 [0x18; 0x01] s0 = (Ok tt, s1) /\
            env_write_i2c_block_data env addr 0x00 [0x62] s1 = (Ok tt, s2) /\
            env_read_byte env addr s2 = (Raise e, env_state w') /\
            trace w' = tr ++ firstn 4 (distance_steps addr)) \/
        (exists s1 s2 s3 v,
            env_write_i2c_block_data env addr 0x00 [0x18; 0x01] s0 = (Ok tt, s1) /\
            env_write_i2c_block_data env addr 0x00 [0x62] s1 = (Ok tt, s2) /\
            env_read_byte env addr s2 = (Ok v, s3) /\
            env_write_i2c_block_data env addr 0x00 [0x15; 0x07] s3 =
              (Raise e, env_state w') /\
            trace w' = tr ++ distance_steps addr)).
Proof.
  intros addr s0 tr self w.
  split; [|split; [|split; [|split; [|split]]]].
  - intros s1 s2 s3 s4 v H1 H2 H3 H4.
    apply get_distance_ok with (s1 := s1) (s2 := s2) (s3 := s3); assumption.
  - intros e s1 H1. apply get_distance_start_fails. exact H1.
  - intros e s1 s2 H1 H2.
    apply get_distance_address_fails with (s1 := s1); assumption.
  - intros e s1 s2 s3 H1 H2 H3.
    apply get_distance_read_fails with (s1 := s1) (s2 := s2); assumption.
  - intros e s1 s2 s3 s4 v H1 H2 H3 H4.
    apply get_distance_clear_fails with (s1 := s1) (s2 := s2) (s3 := s3) (v := v);
      assumption.
  - intros e w' E.
    destruct (env_write_i2c_block_data env addr 0x00 [0x18; 0x01] s0)
      as [[[] | e1] s1] eqn:H1.
    2:{ unfold self, w in E. erewrite get_distance_start_fails in E by eassumption.
        inversion E; subst; cbn [env_state trace]. left.
        split; reflexivity. }
    destruct (env_write_i2c_block_data env addr 0x00 [0x62] s1)
      as [[[] | e2] s2] eqn:H2.
    2:{ unfold self, w in E.
        erewrite get_distance_address_fails in E by eassumption.
        inversion E; subst; cbn [env_state trace]. right; left. exists s1.
        repeat split; (reflexivity || assumption). }
    destruct (env_read_byte env addr s2) as [[v | e3] s3] eqn:H3.
    2:{ unfold self, w in E.
        erewrite get_distance_read_fails in E by eassumption.
        inversion E; subst; cbn [env_state trace]. right; right; left.
        exists s1, s2. repeat split; (reflexivity || assumption). }
    destruct (env_write_i2c_block_data env addr 0x00 [0x15; 0x07] s3)
      as [[[] | e4] s4] eqn:H4.
    + unfold self, w in E. erewrite get_distance_ok in E by eassumption.
      discriminate E.
    + unfold self, w in E.
      erewrite get_distance_clear_fails in E by eassumption.
      inversion E; subst; cbn [env_state trace]. right; right; right.
      exists s1, s2, s3, v. repeat split; (reflexivity || assumption).
Qed.
End VL6180X_distance_claim.

Lemma C7_get_distance_sequence_witness :
  VL6180X.get_distance Stub.env
    {| VL6180X._address := 0x29; VL6180X._test_mode := false |}
    (Stub.start (Stub.init [] [] [0x7B])) =
    (Ok (inject_Z 0x7B),
     {| env_state := Stub.at_call 4 (Stub.init [] [] []);
        trace := [] ++ distance_steps 0x29 |}) /\
  VL6180X.get_distance Stub.env
    {| VL6180X._address := 0x29; VL6180X._test_mode := false |}
    (Stub.start (Stub.init [(2%nat, TimeoutError)] [] [0x7B])) =
    (Raise TimeoutError,
     {| env_state := Stub.at_call 3 (Stub.init [(2%nat, TimeoutError)] [] [0x7B]);
        trace := [] ++ firstn 4 (distance_steps 0x29) |}).
Proof.
  split.
  - apply (proj1 (@C7_get_distance_sequence _ Stub.env 0x29
                    (Stub.init [] [] [0x7B]) []))
      with (s1 := Stub.at_call 1 (Stub.init [] [] [0x7B]))
           (s2 := Stub.at_call 2 (Stub.init [] [] [0x7B]))
           (s3 := Stub.at_call 3 (Stub.init [] [] []));
      reflexivity.
  - apply (proj1 (proj2 (proj2 (proj2
             (@C7_get_distance_sequence _ Stub.env 0x29
                (Stub.init [(2%nat, TimeoutError)] [] [0x7B]) [])))))
      with (s1 := Stub.at_call 1 (Stub.init [(2%nat, TimeoutError)] [] [0x7B]))
           (s2 := Stub.at_call 2 (Stub.init [(2%nat, TimeoutError)] [] [0x7B]));
      reflexivity.
Defined.

(** ** VL6180X: ambient light *)

Section VL6180X_light.
Context {T : Type} (env : Env T).

Lemma get_light_ok addr (s0 s1 s2 s3 s4 s5 : T) tr h l :
  env_write_i2c_block_data env addr 0x00 [0x38; 0x01] s0 = (Ok tt, s1) ->
  env_write_i2c_block_data env addr 0x00 [0x50] s1 = (Ok tt, s2) ->
  env_read_byte env addr s2 = (Ok h, s3) ->
  env_read_byte env addr s3 = (Ok l, s4) ->
  env_write_i2c_block_data env addr 0x00 [0x15; 0x07] s4 = (Ok tt, s5) ->
  VL6180X.get_light env
    {| VL6180X._address := addr; VL6180X._test_mode := false |}
    {| env_state := s0; trace := tr |} =
    (Ok (inject_Z (Z.lor (Z.shiftl h 8) (Z.land l 0xFF)) * (32 # 100) * 100
         / inject_Z (32 * 100))%Q,
     {| env_state := s5;
        trace := tr ++ [EvWriteBlock addr 0x00 [0x38; 0x01]; EvSleep (5 # 10);
                        EvWriteBlock addr 0x00 [0x50]; EvReadByte addr;
                        EvReadByte addr;
                        EvWriteBlock addr 0x00 [0x15; 0x07]] |}).
Proof.
  intros H1 H2 H3 H4 H5.
  unfold VL6180X.get_light. cbn [VL6180X._test_mode].
  rewrite try_except_reraise.
  erewrite bind_ok by (apply write_byte_run; exact H1).
  erewrite bind_ok by apply sleep_eq.
  unfold VL6180X.read16. cbn [VL6180X._test_mode VL6180X._address].
  unfold write_i2c_block_data, read_byte.
  erewrite (@bind_ok _ _ _ (bind _ _)).
  2:{ erewrite bind_ok by (apply call_eq; exact H2).
      erewrite bind_ok by (apply call_eq; exact H3).
      erewrite bind_ok by (apply call_eq; exact H4).
      reflexivity. }
  erewrite bind_ok by (apply write_byte_run; exact H5).
  unfold ret. rewrite <- !app_assoc. reflexivity.
Qed.

Lemma lux_formula raw :
  (inject_Z raw * (32 # 100) * 100 / inject_Z (32 * 100) ==
   inject_Z raw * (1 # 100))%Q.
Proof. change (inject_Z (32 * 100)) with 3200%Q. field. Qed.

(** C6, as the code has it: for every 16-bit raw ALS value [h * 256 + l]
    [get_light] returns [raw * 0.32 * 100 / (32 * 100)], that is
    [raw * 0.01]; raw 3200 yields 32 lux and raw 100 yields 1 lux. *)
Theorem C6_get_light_scaling :
  forall addr (s0 s1 s2 s3 s4 s5 : T) tr h l,
    0 <= h <= 255 -> 0 <= l <= 255 ->
    env_write_i2c_block_data env addr 0x00 [0x38; 0x01] s0 = (Ok tt, s1) ->
    env_write_i2c_block_data env addr 0x00 [0x50] s1 = (Ok tt, s2) ->
    env_read_byte env addr s2 = (Ok h, s3) ->
    env_read_byte env addr s3 = (Ok l, s4) ->
    env_write_i2c_block_data env addr 0x00 [0x15; 0x07] s4 = (Ok tt, s5) ->
    exists lux w',
      VL6180X.get_light env
        {| VL6180X._address := addr; VL6180X._test_mode := false |}
        {| env_state := s0; trace := tr |} = (Ok lux, w') /\
      (lux == inject_Z (h * 256 + l) * (32 # 100) * 100 / (32 * 100))%Q /\
      (lux == inject_Z (h * 256 + l) * (1 # 100))%Q /\
      (h * 256 + l = 3200 -> (lux == 32)%Q) /\
      (h * 256 + l = 100 -> (lux == 1)%Q).
Proof.
  intros addr s0 s1 s2 s3 s4 s5 tr h l Hh Hl H1 H2 H3 H4 H5.
  do 2 eexists. split.
  - apply get_light_ok with (s1 := s1) (s2 := s2) (s3 := s3) (s4 := s4);
      eassumption.
  - rewrite lor_shiftl_8 by exact Hl.
    split; [reflexivity|]. split; [apply lux_formula|].
    split; intros ->; reflexivity.
Qed.
End VL6180X_light.

Lemma C6_get_light_scaling_witness :
  exists lux w',
    VL6180X.get_light Stub.env
      {| VL6180X._address := 0x29; VL6180X._test_mode := false |}
      (Stub.start (Stub.init [] [] [0x0C; 0x80])) = (Ok lux, w') /\
    (lux == inject_Z (0x0C * 256 + 0x80) * (32 # 100) * 100 / (32 * 100))%Q /\
    (lux == inject_Z (0x0C * 256 + 0x80) * (1 # 100))%Q /\
    (0x0C * 256 + 0x80 = 3200 -> (lux == 32)%Q) /\
    (0x0C * 256 + 0x80 = 100 -> (lux == 1)%Q).
Proof.
  apply (@C6_get_light_scaling _ Stub.env 0x29
           (Stub.init [] [] [0x0C; 0x80])
           (Stub.at_call 1 (Stub.init [] [] [0x0C; 0x80]))
           (Stub.at_call 2 (Stub.init [] [] [0x0C; 0x80]))
           (Stub.at_call 3 (Stub.init [] [] [0x80]))
           (Stub.at_call 4 (Stub.init [] [] []))
           (Stub.at_call 5 (Stub.init [] [] [])) [] 0x0C 0x80);
    try lia; reflexivity.
Defined.

(** The spec's sample point of C6 fails on the code: with the raw ALS value
    3200 (bytes 0x0C, 0x80) [get_light] returns 32 lux, which is not 1 lux. *)
Lemma C6_raw_3200_is_32_lux_not_1 :
  exists lux w',
    VL6180X.get_light Stub.env
      {| VL6180X._address := 0x29; VL6180X._test_mode := false |}
      (Stub.start (Stub.init [] [] [0x0C; 0x80])) = (Ok lux, w') /\
    (lux == 32)%Q /\ ~ (lux == 1)%Q.
Proof.
  do 2 eexists. split; [vm_compute; reflexivity|].
  split; [reflexivity|]. intros H. discriminate H.
Qed.

(** ** Test mode readings *)

Section Test_mode.
Context {T : Type} (env : Env T).

Lemma uniform_run a b (s : T) tr :
  uniform env a b {| env_state := s; trace := tr |} =
    (Ok (a + (b - a) * fst (env_random env s))%Q,
     {| env_state := snd (env_random env s); trace := tr ++ [EvRandom] |}).
Proof.
  unfold uniform, random, bind, call, ret. cbn [env_state trace].
  destruct (env_random env s) as [r s']. reflexivity.
Qed.

(** C8: in test mode, with [random.random()] in [[0, 1)], the temperature
    returned by either temperature / humidity driver lies in [[15, 35]], the
    humidity in [[30, 80]], [get_distance] in [[10, 200]] and [get_light] in
    [[0.1, 10]]. *)
Theorem C8_test_mode_ranges :
  forall addr (w : world T),
    random_in_unit env ->
    (exists t h w',
        SHT31.get_temperature_humidity env
          {| SHT31._address := addr; SHT31._test_mode := true |} w =
          (Ok (Some (t, h)), w') /\
        (15 <= t /\ t <= 35)%Q /\ (30 <= h /\ h <= 80)%Q) /\
    (exists t h w',
        SHT31_modified.get_temperature_humidity env
          {| SHT31_modified._address := addr;
             SHT31_modified._test_mode := true |} w = (Ok (t, h), w') /\
        (15 <= t /\ t <= 35)%Q /\ (30 <= h /\ h <= 80)%Q) /\
    (exists d w',
        VL6180X.get_distance env
          {| VL6180X._address := addr; VL6180X._test_mode := true |} w =
          (Ok d, w') /\
        (10 <= d /\ d <= 200)%Q) /\
    (exists l w',
        VL6180X.get_light env
          {| VL6180X._address := addr; VL6180X._test_mode := true |} w =
          (Ok l, w') /\
        ((1 # 10) <= l /\ l <= 10)%Q).
Proof.
  intros addr [s tr] R.
  pose proof (R s) as [L1 U1].
  pose proof (R (snd (env_random env s))) as [L2 U2].
  repeat split.
  - do 3 eexists. split.
    + unfold SHT31.get_temperature_humidity. cbn [SHT31._test_mode].
      erewrite bind_ok by apply uniform_run.
      erewrite bind_ok by apply uniform_run.
      reflexivity.
    + split; split; lra.
  - do 3 eexists. split.
    + unfold SHT31_modified.get_temperature_humidity.
      cbn [SHT31_modified._test_mode].
      erewrite bind_ok by apply uniform_run.
      erewrite bind_ok by apply uniform_run.
      reflexivity.
    + split; split; lra.
  - do 2 eexists. split.
    + unfold VL6180X.get_distance. cbn [VL6180X._test_mode].
      apply uniform_run.
    + split; lra.
  - do 2 eexists. split.
    + unfold VL6180X.get_light. cbn [VL6180X._test_mode].
      apply uniform_run.
    + split; lra.
Qed.
End Test_mode.

Lemma stub_random_in_unit : random_in_unit Stub.env.
Proof.
  intros s. cbn [env_random Stub.env Stub.draw fst].
  pose proof (Z.mod_pos_bound (Z.of_nat (Stub.draws s)) 10 eq_refl) as B.
  unfold Qle, Qlt. cbn [Qnum Qden]. lia.
Qed.

Lemma C8_test_mode_ranges_witness :
  exists t h w',
    SHT31.get_temperature_humidity Stub.env
      {| SHT31._address := 0x44; SHT31._test_mode := true |}
      (Stub.start (Stub.init [] [] [])) = (Ok (Some (t, h)), w') /\
    (15 <= t /\ t <= 35)%Q /\ (30 <= h /\ h <= 80)%Q.
Proof.
  exact (proj1 (@C8_test_mode_ranges _ Stub.env 0x44
                  (Stub.start (Stub.init [] [] [])) stub_random_in_unit)).
Defined.

(** * Further properties of the drivers *)

(** ** [SHT31.get_temperature_humidity] on an arbitrary environment *)

Section SHT31_any_environment.
Context {T : Type} (env : Env T).
Variable addr : Z.

Let self := {| SHT31._address := addr; SHT31._test_mode := false |}.

Lemma pre_sleep attempt secs (s : T) tr :
  (if 0 <? attempt then sleep secs else ret tt)
    {| env_state := s; trace := tr |} =
    (Ok tt, {| env_state := s;
               trace := tr ++ (if 0 <? attempt then [EvSleep secs] else []) |}).
Proof.
  destruct (0 <? attempt); [reflexivity|].
  rewrite app_nil_r. reflexivity.
Qed.

(** Decoding a sample either yields a pair or raises; it never yields [None]
    and leaves the world alone. *)
Lemma decode_any (data : list Z) :
  exists r : result (option (Q * Q)),
    r <> Ok None /\
    forall w : world T,
      (d0 <- getitem data 0 ;;
       d1 <- getitem data 1 ;;
       d3 <- getitem data 3 ;;
       d4 <- getitem data 4 ;;
       ret (Some ((inject_Z (-45)
                   + inject_Z (175 * (d0 * 256 + d1)) / 65535)%Q,
                  (inject_Z (100 * (d3 * 256 + d4)) / 65535)%Q))) w
      = (r, w).
Proof.
  destruct data as [|d0 [|d1 [|d2 [|d3 [|d4 rest]]]]];
    eexists; (split; [|intros w; reflexivity]); discriminate.
Qed.

(** Whatever the bus does, one attempt sends exactly one measurement
    command, and it never yields [None]. *)
Lemma attempt_body_any attempt (s : T) tr :
  exists r s' evs,
    SHT31.attempt_body env self attempt {| env_state := s; trace := tr |} =
      (r, {| env_state := s'; trace := tr ++ evs |}) /\
    attempts_in evs = 1%nat /\ r <> Ok None.
Proof.
  unfold SHT31.attempt_body, SHT31.write_list, SHT31.read_list,
    write_i2c_block_data, read_i2c_block_data.
  cbn [SHT31._test_mode SHT31._address self].
  erewrite bind_ok by apply pre_sleep.
  destruct (env_write_i2c_block_data env addr 0x2C [0x10] s)
    as [[[] | e1] s1] eqn:Hw.
  2:{ erewrite bind_raise by (apply call_eq; exact Hw).
      do 3 eexists. split; [rewrite <- app_assoc; reflexivity|].
      split; [destruct (0 <? attempt); reflexivity|discriminate]. }
  erewrite bind_ok by (apply call_eq; exact Hw).
  erewrite bind_ok by apply sleep_eq.
  destruct (env_read_i2c_block_data env addr 0x00 6 s1)
    as [[data | e2] s2] eqn:Hr.
  2:{ erewrite bind_raise by (apply call_eq; exact Hr).
      do 3 eexists. split; [rewrite <- !app_assoc; reflexivity|].
      split; [destruct (0 <? attempt); reflexivity|discriminate]. }
  erewrite bind_ok by (apply call_eq; exact Hr).
  destruct (decode_any data) as (r & Hr0 & D).
  rewrite D.
  do 3 eexists. split; [rewrite <- !app_assoc; reflexivity|].
  split; [destruct (0 <? attempt); reflexivity|exact Hr0].
Qed.
End SHT31_any_environment.

Section SHT31_any_environment_call.
Context {T : Type} (env : Env T).

Lemma hardware_call_any addr (s : T) tr :
  exists r s' evs,
    SHT31.get_temperature_humidity env
      {| SHT31._address := addr; SHT31._test_mode := false |}
      {| env_state := s; trace := tr |} =
      (r, {| env_state := s'; trace := tr ++ evs |}) /\
    (1 <= attempts_in evs <= 3)%nat /\
    r <> Ok None /\
    (forall e, r = Raise e -> is_transport_error e = true ->
               attempts_in evs = 3%nat).
Proof.
  rewrite hardware_call.
  destruct (attempt_body_any env addr 0 s tr) as (r1 & s1 & ev1 & E1 & N1 & D1).
  cbn [SHT31.retry_loop]. unfold try_except at 1. rewrite E1.
  destruct r1 as [o1 | e1].
  { exists (Ok o1), s1, ev1. repeat split; try lia; try exact D1; discriminate. }
  destruct (is_transport_error e1) eqn:T1.
  2:{ exists (Raise e1), s1, ev1. repeat split; try lia; try discriminate.
      intros e [= <-] He. congruence. }
  change (0 =? SHT31.max_retries - 1) with false. cbv iota.
  destruct (attempt_body_any env addr 1 s1 (tr ++ ev1))
    as (r2 & s2 & ev2 & E2 & N2 & D2).
  unfold try_except at 1. rewrite E2.
  destruct r2 as [o2 | e2].
  { exists (Ok o2), s2, (ev1 ++ ev2). rewrite attempts_in_app.
    split; [rewrite <- !app_assoc; reflexivity|].
    repeat split; try lia; try exact D2; discriminate. }
  destruct (is_transport_error e2) eqn:T2.
  2:{ exists (Raise e2), s2, (ev1 ++ ev2). rewrite attempts_in_app.
      split; [rewrite <- !app_assoc; reflexivity|].
      repeat split; try lia; try discriminate.
      intros e [= <-] He. congruence. }
  change (1 =? SHT31.max_retries - 1) with false. cbv iota.
  destruct (attempt_body_any env addr 2 s2 ((tr ++ ev1) ++ ev2))
    as (r3 & s3 & ev3 & E3 & N3 & D3).
  unfold try_except at 1. rewrite E3.
  assert (A : attempts_in (ev1 ++ ev2 ++ ev3) = 3%nat)
    by (rewrite !attempts_in_app; lia).
  destruct r3 as [o3 | e3].
  { exists (Ok o3), s3, (ev1 ++ ev2 ++ ev3).
    split; [rewrite <- !app_assoc; reflexivity|].
    repeat split; try lia; try exact D3; discriminate. }
  exists (Raise e3), s3, (ev1 ++ ev2 ++ ev3).
  split.
  - destruct (is_transport_error e3); rewrite <- !app_assoc; reflexivity.
  - repeat split; try lia; discriminate.
Qed.

(** X1: [get_temperature_humidity] never returns [None], in test mode or on
    any bus: the retry loop cannot run out of attempts without raising, so
    the tuple unpacking in [get_temperature] / [get_humidity] cannot fail. *)
Theorem get_temperature_humidity_never_None :
  forall (self : SHT31.t) (w : world T),
    fst (SHT31.get_temperature_humidity env self w) <> Ok None.
Proof.
  intros [addr [|]] [s tr].
  - unfold SHT31.get_temperature_humidity. cbn [SHT31._test_mode].
    erewrite bind_ok by apply uniform_run.
    erewrite bind_ok by apply uniform_run.
    discriminate.
  - destruct (hardware_call_any addr s tr) as (r & s' & evs & E & _ & D & _).
    rewrite E. exact D.
Qed.

(** X2: on any bus, one hardware-mode call sends at least one and at most
    three measurement commands, and a transport error reaches the caller
    only after all three have been sent. *)
Theorem get_temperature_humidity_attempts_bounded :
  forall addr (s : T) tr,
    exists r w' evs,
      SHT31.get_temperature_humidity env
        {| SHT31._address := addr; SHT31._test_mode := false |}
        {| env_state := s; trace := tr |} = (r, w') /\
      trace w' = tr ++ evs /\
      (1 <= attempts_in evs <= 3)%nat /\
      (forall e, r = Raise e -> is_transport_error e = true ->
                 attempts_in evs = 3%nat).
Proof.
  intros addr s tr.
  destruct (hardware_call_any addr s tr) as (r & s' & evs & E & B & _ & L).
  exists r. eexists. exists evs. split; [exact E|].
  split; [reflexivity|]. split; [exact B|exact L].
Qed.
End SHT31_any_environment_call.

(** ** Samples, wrappers and ranges of the temperature / humidity drivers *)

Section SHT31_more.
Context {T : Type} (env : Env T).

(** X3: a sample of fewer than five bytes makes the hardware-mode call raise
    [IndexError] after a single attempt: the handler only catches transport
    errors, so nothing is retried. *)
Theorem short_sample_raises_IndexError_without_retry :
  forall addr (s s1 s' : T) tr data,
    env_write_i2c_block_data env addr 0x2C [0x10] s = (Ok tt, s1) ->
    env_read_i2c_block_data env addr 0x00 6 s1 = (Ok data, s') ->
    (length data < 5)%nat ->
    SHT31.get_temperature_humidity env
      {| SHT31._address := addr; SHT31._test_mode := false |}
      {| env_state := s; trace := tr |} =
      (Raise IndexError,
       {| env_state := s';
          trace := tr ++ [EvWriteBlock addr 0x2C [0x10]; EvSleep (5 # 10);
                          EvReadBlock addr 0x00 6] |}).
Proof.
  intros addr s s1 s' tr data Hw Hr Hlen.
  rewrite hardware_call. cbn [SHT31.retry_loop].
  erewrite try_except_uncaught; [reflexivity| |reflexivity].
  unfold SHT31.attempt_body, SHT31.write_list, SHT31.read_list,
    write_i2c_block_data, read_i2c_block_data.
  cbn [SHT31._test_mode SHT31._address].
  erewrite bind_ok by apply pre_sleep.
  erewrite bind_ok by (apply call_eq; exact Hw).
  erewrite bind_ok by apply sleep_eq.
  erewrite bind_ok by (apply call_eq; exact Hr).
  change (0 <? 0) with false. cbv iota.
  rewrite app_nil_r, <- !app_assoc.
  destruct data as [|d0 [|d1 [|d2 [|d3 [|d4 rest]]]]];
    try reflexivity.
  cbn [length] in Hlen. lia.
Qed.

(** X4: the driver without retry gives up at the first transport error: the
    error of the failing bus operation is raised after one measurement
    command. *)
Theorem plain_driver_does_not_retry :
  forall addr (s s' : T) e tr,
    attempt_fails env addr [0x06] s e s' ->
    exists evs,
      SHT31_modified.get_temperature_humidity env
        {| SHT31_modified._address := addr;
           SHT31_modified._test_mode := false |}
        {| env_state := s; trace := tr |} =
        (Raise e, {| env_state := s'; trace := tr ++ evs |}) /\
      attempts_in evs = 1%nat.
Proof.
  intros addr s s' e tr (_ & [Hw | (s1 & Hw & Hr)]);
    unfold SHT31_modified.get_temperature_humidity;
    cbn [SHT31_modified._test_mode];
    rewrite try_except_reraise;
    unfold SHT31_modified.write_list, SHT31_modified.read_list,
      write_i2c_block_data, read_i2c_block_data,
      SHT31_modified.COMMAND_MEAS_CLKST, SHT31_modified.COMMAND_MEAS_HIGHREP;
    cbn [SHT31_modified._test_mode SHT31_modified._address].
  - erewrite bind_raise by (apply call_eq; exact Hw).
    eexists. split; reflexivity.
  - erewrite bind_ok by (apply call_eq; exact Hw).
    erewrite bind_ok by apply sleep_eq.
    erewrite bind_raise by (apply call_eq; exact Hr).
    eexists. split; [rewrite <- !app_assoc; reflexivity|reflexivity].
Qed.

(** X5: [get_temperature] followed by [get_humidity] measures twice: the
    temperature comes from the first sample and the humidity from the
    second one, and two measurement commands are sent. *)
Theorem temperature_then_humidity_use_two_samples :
  forall addr (s0 s1 s2 : T) tr a0 a1 a2 a3 a4 a5 b0 b1 b2 b3 b4 b5,
    attempt_succeeds env addr [0x10] s0 [a0; a1; a2; a3; a4; a5] s1 ->
    attempt_succeeds env addr [0x10] s1 [b0; b1; b2; b3; b4; b5] s2 ->
    let self := {| SHT31._address := addr; SHT31._test_mode := false |} in
    exists t h w1 evs,
      SHT31.get_temperature env self {| env_state := s0; trace := tr |} =
        (Ok t, w1) /\
      SHT31.get_humidity env self w1 =
        (Ok h, {| env_state := s2; trace := tr ++ evs |}) /\
      (t == -45 + 175 * inject_Z (a0 * 256 + a1) / 65535)%Q /\
      (h == 100 * inject_Z (b3 * 256 + b4) / 65535)%Q /\
      attempts_in evs = 2%nat.
Proof.
  intros addr s0 s1 s2 tr a0 a1 a2 a3 a4 a5 b0 b1 b2 b3 b4 b5 A B self.
  destruct (success_at_once tr A) as (ev1 & E1 & N1).
  destruct (success_at_once (tr ++ ev1) B) as (ev2 & E2 & N2).
  do 3 eexists. exists (ev1 ++ ev2). split; [|split].
  - unfold SHT31.get_temperature.
    erewrite bind_ok by exact E1. reflexivity.
  - unfold SHT31.get_humidity.
    erewrite bind_ok by exact E2. rewrite <- app_assoc. reflexivity.
  - cbn [fst snd]. split; [apply temperature_formula|].
    split; [apply humidity_formula|].
    rewrite attempts_in_app. lia.
Qed.

(** X6: with data bytes in [[0, 255]] the decoded temperature lies in
    [[-45, 130]] and the decoded humidity in [[0, 100]], in both drivers. *)
Theorem decoded_reading_in_sensor_range :
  forall v addr (s s' : T) tr th tl ca hh hl cb,
    0 <= th <= 255 -> 0 <= tl <= 255 -> 0 <= hh <= 255 -> 0 <= hl <= 255 ->
    attempt_succeeds env addr (command_of v) s [th; tl; ca; hh; hl; cb] s' ->
    exists t h w',
      measure env v addr {| env_state := s; trace := tr |} =
        (Ok (Some (t, h)), w') /\
      (-45 <= t /\ t <= 130)%Q /\ (0 <= h /\ h <= 100)%Q.
Proof.
  intros v addr s s' tr th tl ca hh hl cb Hth Htl Hhh Hhl A.
  destruct (measure_answered v tr A) as (w' & E).
  do 3 eexists. split; [exact E|].
  unfold Qle, Qplus, Qdiv, Qmult, Qinv, inject_Z. cbn [Qnum Qden].
  repeat split; lia.
Qed.
End SHT31_more.

(** ** VL6180X: 16-bit register addressing *)

Lemma land_255 x : Z.land x 0xFF = x mod 256.
Proof. change 0xFF with (Z.ones 8). rewrite Z.land_ones by lia. reflexivity. Qed.

Lemma shiftr_8 x : Z.shiftr x 8 = x / 256.
Proof. rewrite Z.shiftr_div_pow2 by lia. reflexivity. Qed.

(** Splitting a 16-bit value into its high and low byte loses nothing. *)
Lemma split_16 x :
  0 <= x <= 0xFFFF ->
  let hi := Z.land (Z.shiftr x 8) 0xFF in
  let lo := Z.land x 0xFF in
  0 <= hi <= 255 /\ 0 <= lo <= 255 /\ hi * 256 + lo = x.
Proof.
  intros Hx hi lo. subst hi lo. rewrite !land_255, shiftr_8.
  pose proof (Z.mod_pos_bound x 256 eq_refl).
  pose proof (Z.mod_pos_bound (x / 256) 256 eq_refl).
  assert (x / 256 < 256) by (apply Z.div_lt_upper_bound; lia).
  assert (0 <= x / 256) by (apply Z.div_pos; lia).
  rewrite (Z.mod_small (x / 256) 256) by lia.
  pose proof (Z.div_mod x 256). lia.
Qed.

Section VL6180X_registers.
Context {T : Type} (env : Env T).

(** X7: in hardware mode [write_byte] performs exactly one block write; its
    command byte and first data byte are the high and low byte of the
    register address, and the data byte is [data] reduced modulo 256. *)
Theorem write_byte_encodes_register :
  forall addr register16 data (s : T) tr,
    0 <= register16 <= 0xFFFF ->
    exists a1 a0 d r s',
      VL6180X.write_byte env
        {| VL6180X._address := addr; VL6180X._test_mode := false |}
        register16 data {| env_state := s; trace := tr |} =
        (r, {| env_state := s';
               trace := tr ++ [EvWriteBlock addr a1 [a0; d]] |}) /\
      env_write_i2c_block_data env addr a1 [a0; d] s = (r, s') /\
      0 <= a1 <= 255 /\ 0 <= a0 <= 255 /\ a1 * 256 + a0 = register16 /\
      d = data mod 256.
Proof.
  intros addr register16 data s tr Hreg.
  destruct (split_16 Hreg) as (B1 & B0 & E).
  destruct (env_write_i2c_block_data env addr
              (Z.land (Z.shiftr register16 8) 0xFF)
              [Z.land register16 0xFF; Z.land data 0xFF] s) as [r s'] eqn:Hw.
  exists (Z.land (Z.shiftr register16 8) 0xFF), (Z.land register16 0xFF),
         (Z.land data 0xFF), r, s'.
  split; [apply write_byte_run; exact Hw|].
  split; [exact Hw|]. repeat split; try lia. apply land_255.
Qed.

(** X8: in hardware mode [write_byte16] performs exactly one block write
    carrying the register address and the 16-bit value, both big-endian. *)
Theorem write_byte16_is_big_endian :
  forall addr register16 data16 (s : T) tr,
    0 <= register16 <= 0xFFFF -> 0 <= data16 <= 0xFFFF ->
    exists a1 a0 d1 d0 r s',
      VL6180X.write_byte16 env
        {| VL6180X._address := addr; VL6180X._test_mode := false |}
        register16 data16 {| env_state := s; trace := tr |} =
        (r, {| env_state := s';
               trace := tr ++ [EvWriteBlock addr a1 [a0; d1; d0]] |}) /\
      env_write_i2c_block_data env addr a1 [a0; d1; d0] s = (r, s') /\
      a1 * 256 + a0 = register16 /\ d1 * 256 + d0 = data16 /\
      0 <= a1 <= 255 /\ 0 <= a0 <= 255 /\ 0 <= d1 <= 255 /\ 0 <= d0 <= 255.
Proof.
  intros addr register16 data16 s tr Hreg Hdata.
  destruct (split_16 Hreg) as (A1 & A0 & EA).
  destruct (split_16 Hdata) as (D1 & D0 & ED).
  destruct (env_write_i2c_block_data env addr
              (Z.land (Z.shiftr register16 8) 0xFF)
              [Z.land register16 0xFF; Z.land (Z.shiftr data16 8) 0xFF;
               Z.land data16 0xFF] s) as [r s'] eqn:Hw.
  exists (Z.land (Z.shiftr register16 8) 0xFF), (Z.land register16 0xFF),
         (Z.land (Z.shiftr data16 8) 0xFF), (Z.land data16 0xFF), r, s'.
  split.
  - unfold VL6180X.write_byte16. cbn [VL6180X._test_mode VL6180X._address].
    apply call_eq. exact Hw.
  - split; [exact Hw|]. repeat split; lia.
Qed.

(** X9: in hardware mode [read16] addresses the register with one block
    write, reads two bytes, and returns them as a big-endian value in
    [[0, 65535]]. *)
Theorem read16_is_big_endian :
  forall addr register16 (s s1 s2 s3 : T) tr h l,
    0 <= h <= 255 -> 0 <= l <= 255 ->
    env_write_i2c_block_data env addr (Z.land (Z.shiftr register16 8) 0xFF)
      [Z.land register16 0xFF] s = (Ok tt, s1) ->
    env_read_byte env addr s1 = (Ok h, s2) ->
    env_read_byte env addr s2 = (Ok l, s3) ->
    exists v w',
      VL6180X.read16 env
        {| VL6180X._address := addr; VL6180X._test_mode := false |}
        register16 {| env_state := s; trace := tr |} = (Ok v, w') /\
      v = h * 256 + l /\ 0 <= v <= 65535 /\ env_state w' = s3.
Proof.
  intros addr register16 s s1 s2 s3 tr h l Hh Hl Hw H1 H2.
  do 2 eexists. split.
  - unfold VL6180X.read16. cbn [VL6180X._test_mode VL6180X._address].
    unfold write_i2c_block_data, read_byte.
    erewrite bind_ok by (apply call_eq; exact Hw).
    erewrite bind_ok by (apply call_eq; exact H1).
    erewrite bind_ok by (apply call_eq; exact H2).
    reflexivity.
  - rewrite lor_shiftl_8 by exact Hl. cbn [env_state]. repeat split; lia.
Qed.
End VL6180X_registers.

(** ** VL6180X: the constructor on a bus that works *)

Section VL6180X_reliable.
Context {T : Type} (env : Env T).
Variables (addr fresh : Z) (Inv : T -> Prop).
Hypothesis reliable : reliable_from env addr fresh Inv.

Let self := {| VL6180X._address := addr; VL6180X._test_mode := false |}.

Lemma write_bytes_reliable regs (s : T) tr :
  Inv s ->
  exists s',
    VL6180X.write_bytes env self regs {| env_state := s; trace := tr |} =
      (Ok tt, {| env_state := s';
                 trace := tr ++ map (encode_write_byte addr) regs |}) /\
    Inv s'.
Proof.
  revert s tr. induction regs as [|[register16 data] rest IH]; intros s tr I.
  - exists s. split; [|exact I]. cbn. rewrite app_nil_r. reflexivity.
  - destruct (proj1 reliable s addr (Z.land (Z.shiftr register16 8) 0xFF)
                [Z.land register16 0xFF; Z.land data 0xFF] I) as (s1 & Hw & I1).
    destruct (IH s1 (tr ++ [encode_write_byte addr (register16, data)]) I1)
      as (s' & E & I').
    exists s'. split; [|exact I'].
    cbn [VL6180X.write_bytes map].
    erewrite bind_ok by (apply write_byte_run; exact Hw).
    unfold encode_write_byte in E at 1. cbn [fst snd] in E.
    rewrite E, <- app_assoc. reflexivity.
Qed.

Lemma write_regs_reliable regs (s : T) tr :
  Inv s ->
  exists s',
    VL6180X.write_regs env self regs {| env_state := s; trace := tr |} =
      (Ok tt, {| env_state := s';
                 trace := tr ++ map (encode_reg_write addr) regs |}) /\
    Inv s'.
Proof.
  revert s tr. induction regs as [|w rest IH]; intros s tr I.
  - exists s. split; [|exact I]. cbn. rewrite app_nil_r. reflexivity.
  - assert (W : exists s1,
               VL6180X.write_reg env self w {| env_state := s; trace := tr |} =
                 (Ok tt, {| env_state := s1;
                            trace := tr ++ [encode_reg_write addr w] |}) /\
               Inv s1).
    { destruct w as [register16 data | register16 data16].
      - destruct (proj1 reliable s addr (Z.land (Z.shiftr register16 8) 0xFF)
                    [Z.land register16 0xFF; Z.land data 0xFF] I)
          as (s1 & Hw & I1).
        exists s1. split; [|exact I1]. apply write_byte_run. exact Hw.
      - destruct (proj1 reliable s addr (Z.land (Z.shiftr register16 8) 0xFF)
                    [Z.land register16 0xFF; Z.land (Z.shiftr data16 8) 0xFF;
                     Z.land data16 0xFF] I) as (s1 & Hw & I1).
        exists s1. split; [|exact I1].
        cbn [VL6180X.write_reg]. unfold VL6180X.write_byte16.
        cbn [VL6180X._test_mode VL6180X._address self].
        apply call_eq. exact Hw. }
    destruct W as (s1 & E1 & I1).
    destruct (IH s1 (tr ++ [encode_reg_write addr w]) I1) as (s' & E & I').
    exists s'. split; [|exact I'].
    cbn [VL6180X.write_regs map].
    erewrite bind_ok by exact E1.
    rewrite E, <- app_assoc. reflexivity.
Qed.

(** One pass through the [try] block. *)
Lemma init_body_reliable attempt (s : T) tr :
  Inv s ->
  exists s',
    VL6180X.init_body env self attempt {| env_state := s; trace := tr |} =
      (Ok tt,
       {| env_state := s';
          trace := tr ++ (if 0 <? attempt then [EvSleep (5 # 10)] else []) ++
                   init_attempt_events addr (fresh =? 1) |}) /\
    Inv s'.
Proof.
  intros I. unfold VL6180X.init_body.
  erewrite bind_ok by apply pre_sleep.
  destruct (proj1 reliable s addr 0x00 [0x16] I) as (s1 & Hw & I1).
  destruct (proj2 reliable s1 I1) as (s2 & Hr & I2).
  erewrite bind_ok by (eapply read_run; [exact Hw | exact Hr]).
  unfold init_attempt_events.
  destruct (fresh =? 1).
  - destruct (write_bytes_reliable VL6180X.private_registers
                ((tr ++ (if 0 <? attempt then [EvSleep (5 # 10)] else [])) ++
                 [EvWriteBlock addr
                    (Z.land (Z.shiftr VL6180X.COMMAND_SYSTEM_FRESH_OUT_OF_RESET 8)
                       0xFF)
                    [Z.land VL6180X.COMMAND_SYSTEM_FRESH_OUT_OF_RESET 0xFF];
                  EvReadByte addr]) I2) as (s3 & E3 & I3).
    erewrite bind_ok by exact E3.
    destruct (write_bytes_reliable VL6180X.public_registers
                (((tr ++ (if 0 <? attempt then [EvSleep (5 # 10)] else [])) ++
                  [EvWriteBlock addr
                     (Z.land (Z.shiftr VL6180X.COMMAND_SYSTEM_FRESH_OUT_OF_RESET 8)
                        0xFF)
                     [Z.land VL6180X.COMMAND_SYSTEM_FRESH_OUT_OF_RESET 0xFF];
                   EvReadByte addr]) ++
                 map (encode_write_byte addr) VL6180X.private_registers) I3)
      as (s4 & E4 & I4).
    exists s4. split; [|exact I4].
    rewrite E4, <- !app_assoc. reflexivity.
  - erewrite bind_ok by reflexivity.
    destruct (write_bytes_reliable VL6180X.public_registers
                ((tr ++ (if 0 <? attempt then [EvSleep (5 # 10)] else [])) ++
                 [EvWriteBlock addr
                    (Z.land (Z.shiftr VL6180X.COMMAND_SYSTEM_FRESH_OUT_OF_RESET 8)
                       0xFF)
                    [Z.land VL6180X.COMMAND_SYSTEM_FRESH_OUT_OF_RESET 0xFF];
                  EvReadByte addr]) I2) as (s4 & E4 & I4).
    exists s4. split; [|exact I4].
    rewrite E4, <- !app_assoc. reflexivity.
Qed.
End VL6180X_reliable.

Section VL6180X_construction.
Context {T : Type} (env : Env T).

(** X10: on a bus that works, hardware-mode construction opens bus 1, makes
    the reset check, writes the private registers only if the device is
    fresh out of reset, then the public and the trailing registers, each
    once and in program order, without pausing: 47 block writes for a fresh
    device and 17 otherwise. *)
Theorem construction_on_reliable_bus :
  forall addr fresh (Inv : T -> Prop) (s s0 : T) tr,
    reliable_from env addr fresh Inv ->
    env_open env 1 s = (Ok tt, s0) ->
    Inv s0 ->
    exists w',
      VL6180X.__init__ env addr false {| env_state := s; trace := tr |} =
        (Ok {| VL6180X._address := addr; VL6180X._test_mode := false |}, w') /\
      trace w' = tr ++ [EvOpen 1] ++
                 init_attempt_events addr (fresh =? 1) ++
                 trailing_events addr /\
      Inv (env_state w') /\
      count is_block_write
        (init_attempt_events addr (fresh =? 1) ++ trailing_events addr) =
        (if fresh =? 1 then 47%nat else 17%nat).
Proof.
  intros addr fresh Inv s s0 tr R Hopen I0.
  destruct (init_body_reliable R 0 _ (tr ++ [EvOpen 1]) I0) as (s1 & E1 & I1).
  destruct (write_regs_reliable R VL6180X.trailing_registers _
              ((tr ++ [EvOpen 1]) ++ init_attempt_events addr (fresh =? 1)) I1)
    as (s2 & E2 & I2).
  eexists. split; [|split; [|split]].
  - unfold VL6180X.__init__. cbn [negb].
    erewrite bind_ok by (apply call_eq; exact Hopen).
    change (range (Z.to_nat VL6180X.max_retries)) with [0; 1; 2].
    cbn [VL6180X.init_loop].
    erewrite bind_ok by (apply try_except_ok; exact E1).
    cbn [app] in E2 |- *.
    erewrite bind_ok by exact E2.
    reflexivity.
  - cbn [trace]. unfold trailing_events. rewrite <- !app_assoc. reflexivity.
  - exact I2.
  - destruct (fresh =? 1); reflexivity.
Qed.

(** A reset check that fails, whichever of its two bus operations raises. *)
Lemma init_body_reset_check_fails addr attempt (s s' : T) e in_read tr :
  reset_check_fails env addr s e in_read s' ->
  VL6180X.init_body env
    {| VL6180X._address := addr; VL6180X._test_mode := false |} attempt
    {| env_state := s; trace := tr |} =
    (Raise e,
     {| env_state := s';
        trace := tr ++ (if 0 <? attempt then [EvSleep (5 # 10)] else []) ++
                 failed_reset_check_events addr in_read |}).
Proof.
  intros [_ F]. unfold VL6180X.init_body.
  erewrite bind_ok by apply pre_sleep.
  destruct in_read.
  - destruct F as (s1 & Hw & Hr).
    erewrite bind_raise by (eapply read_run; [exact Hw | exact Hr]).
    rewrite <- !app_assoc. reflexivity.
  - erewrite bind_raise by (apply read_run_unaddressed; exact F).
    rewrite <- !app_assoc. reflexivity.
Qed.

(** X11: when the reset check of the first attempt fails with a transport
    error, in its address write or in its byte read, and the bus works from
    then on, construction pauses 0.5 s, starts the sequence again from the
    reset check and completes. *)
Theorem construction_retries_failed_reset_check :
  forall addr fresh (Inv : T -> Prop) (s s0 s1 : T) e in_read tr,
    reliable_from env addr fresh Inv ->
    env_open env 1 s = (Ok tt, s0) ->
    reset_check_fails env addr s0 e in_read s1 ->
    Inv s1 ->
    exists w',
      VL6180X.__init__ env addr false {| env_state := s; trace := tr |} =
        (Ok {| VL6180X._address := addr; VL6180X._test_mode := false |}, w') /\
      trace w' = tr ++ [EvOpen 1] ++
                 failed_reset_check_events addr in_read ++
                 [EvSleep (5 # 10)] ++
                 init_attempt_events addr (fresh =? 1) ++
                 trailing_events addr.
Proof.
  intros addr fresh Inv s s0 s1 e in_read tr R Hopen Hfail I1.
  pose proof (proj1 Hfail) as He.
  pose proof (init_body_reset_check_fails 0 (tr ++ [EvOpen 1]) Hfail) as E1.
  change (0 <? 0) with false in E1. cbv iota in E1. cbn [app] in E1.
  destruct (init_body_reliable R 1 _
              ((tr ++ [EvOpen 1]) ++ failed_reset_check_events addr in_read) I1)
    as (s2 & E2 & I2).
  change (0 <? 1) with true in E2. cbv iota in E2.
  destruct (write_regs_reliable R VL6180X.trailing_registers _
              (((tr ++ [EvOpen 1]) ++ failed_reset_check_events addr in_read) ++
               [EvSleep (5 # 10)] ++ init_attempt_events addr (fresh =? 1)) I2)
    as (s3 & E3 & I3).
  eexists. split.
  - unfold VL6180X.__init__. cbn [negb].
    erewrite bind_ok by (apply call_eq; exact Hopen).
    change (range (Z.to_nat VL6180X.max_retries)) with [0; 1; 2].
    cbn [VL6180X.init_loop].
    erewrite bind_ok.
    2:{ erewrite try_except_caught; [|exact E1|exact He].
        change (0 =? VL6180X.max_retries - 1) with false. cbv iota.
        apply try_except_ok. exact E2. }
    erewrite bind_ok by exact E3.
    reflexivity.
  - cbn [trace]. unfold trailing_events. rewrite <- !app_assoc. reflexivity.
Qed.

(** X12: when the reset check fails with a transport error on each of the
    three attempts, each time in its address write or in its byte read,
    construction raises the third error; it has paused 0.5 s between the
    attempts and its only bus traffic is that of the three reset checks, so
    no register has been written. *)
Theorem construction_gives_up_after_three_reset_checks :
  forall addr (s s0 s1 s2 s3 : T) e1 e2 e3 r1 r2 r3 tr,
    env_open env 1 s = (Ok tt, s0) ->
    reset_check_fails env addr s0 e1 r1 s1 ->
    reset_check_fails env addr s1 e2 r2 s2 ->
    reset_check_fails env addr s2 e3 r3 s3 ->
    VL6180X.__init__ env addr false {| env_state := s; trace := tr |} =
      (Raise e3,
       {| env_state := s3;
          trace := tr ++ [EvOpen 1] ++
                   failed_reset_check_events addr r1 ++ [EvSleep (5 # 10)] ++
                   failed_reset_check_events addr r2 ++ [EvSleep (5 # 10)] ++
                   failed_reset_check_events addr r3 |}).
Proof.
  intros addr s s0 s1 s2 s3 e1 e2 e3 r1 r2 r3 tr Hopen F1 F2 F3.
  pose proof (proj1 F1) as T1. pose proof (proj1 F2) as T2.
  pose proof (proj1 F3) as T3.
  pose proof (init_body_reset_check_fails 0 (tr ++ [EvOpen 1]) F1) as E1.
  change (0 <? 0) with false in E1. cbv iota in E1. cbn [app] in E1.
  pose proof (init_body_reset_check_fails 1
                ((tr ++ [EvOpen 1]) ++ failed_reset_check_events addr r1) F2)
    as E2.
  change (0 <? 1) with true in E2. cbv iota in E2.
  pose proof (init_body_reset_check_fails 2
                (((tr ++ [EvOpen 1]) ++ failed_reset_check_events addr r1) ++
                 [EvSleep (5 # 10)] ++ failed_reset_check_events addr r2) F3)
    as E3.
  change (0 <? 2) with true in E3. cbv iota in E3.
  unfold VL6180X.__init__. cbn [negb].
  erewrite bind_ok by (apply call_eq; exact Hopen).
  change (range (Z.to_nat VL6180X.max_retries)) with [0; 1; 2].
  cbn [VL6180X.init_loop].
  erewrite bind_raise.
  2:{ erewrite try_except_caught; [|exact E1|exact T1].
      change (0 =? VL6180X.max_retries - 1) with false. cbv iota.
      erewrite try_except_caught; [|exact E2|exact T2].
      change (1 =? VL6180X.max_retries - 1) with false. cbv iota.
      erewrite try_except_caught; [|exact E3|exact T3].
      change (2 =? VL6180X.max_retries - 1) with true. cbv iota.
      reflexivity. }
  rewrite <- !app_assoc. reflexivity.
Qed.
End VL6180X_construction.

(** ** VL6180X: errors while measuring light *)

Section VL6180X_light_errors.
Context {T : Type} (env : Env T).

(** X13: [get_light] does not retry and does not clean up after a bus error:
    when the second result byte cannot be read, the error is raised as it
    is, after one ALS start, and the interrupt-clear write is not sent. *)
Theorem get_light_propagates_read_error :
  forall addr (s0 s1 s2 s3 s4 : T) tr h e,
    env_write_i2c_block_data env addr 0x00 [0x38; 0x01] s0 = (Ok tt, s1) ->
    env_write_i2c_block_data env addr 0x00 [0x50] s1 = (Ok tt, s2) ->
    env_read_byte env addr s2 = (Ok h, s3) ->
    env_read_byte env addr s3 = (Raise e, s4) ->
    VL6180X.get_light env
      {| VL6180X._address := addr; VL6180X._test_mode := false |}
      {| env_state := s0; trace := tr |} =
      (Raise e,
       {| env_state := s4;
          trace := tr ++ [EvWriteBlock addr 0x00 [0x38; 0x01]; EvSleep (5 # 10);
                          EvWriteBlock addr 0x00 [0x50]; EvReadByte addr;
                          EvReadByte addr] |}).
Proof.
  intros addr s0 s1 s2 s3 s4 tr h e H1 H2 H3 H4.
  unfold VL6180X.get_light. cbn [VL6180X._test_mode].
  rewrite try_except_reraise.
  erewrite bind_ok by (apply write_byte_run; exact H1).
  erewrite bind_ok by apply sleep_eq.
  unfold VL6180X.read16. cbn [VL6180X._test_mode VL6180X._address].
  unfold write_i2c_block_data, read_byte.
  erewrite (@bind_raise _ _ _ (bind _ _)).
  2:{ erewrite bind_ok by (apply call_eq; exact H2).
      erewrite bind_ok by (apply call_eq; exact H3).
      erewrite bind_raise by (apply call_eq; exact H4).
      reflexivity. }
  rewrite <- !app_assoc. reflexivity.
Qed.
End VL6180X_light_errors.

(** ** Test mode and byte access *)

Section Test_mode_traffic.
Context {T : Type} (env : Env T).

(** X14: in test mode a reading only draws from the random generator: no
    bus operation, no pause, no exception, on any environment; register
    reads return their canned values and register writes do nothing. *)
Theorem test_mode_never_touches_the_bus :
  forall addr (s : T) tr,
    (exists p,
        SHT31.get_temperature_humidity env
          {| SHT31._address := addr; SHT31._test_mode := true |}
          {| env_state := s; trace := tr |} =
          (Ok (Some p),
           {| env_state := snd (env_random env (snd (env_random env s)));
              trace := tr ++ [EvRandom; EvRandom] |})) /\
    (exists d,
        VL6180X.get_distance env
          {| VL6180X._address := addr; VL6180X._test_mode := true |}
          {| env_state := s; trace := tr |} =
          (Ok d, {| env_state := snd (env_random env s);
                    trace := tr ++ [EvRandom] |})) /\
    (exists l,
        VL6180X.get_light env
          {| VL6180X._address := addr; VL6180X._test_mode := true |}
          {| env_state := s; trace := tr |} =
          (Ok l, {| env_state := snd (env_random env s);
                    trace := tr ++ [EvRandom] |})) /\
    (forall register16 data w,
        let self := {| VL6180X._address := addr;
                       VL6180X._test_mode := true |} in
        VL6180X.write_byte env self register16 data w = (Ok tt, w) /\
        VL6180X.write_byte16 env self register16 data w = (Ok tt, w) /\
        VL6180X.read16 env self register16 w = (Ok 0xFFFF, w) /\
        VL6180X.read env self register16 w =
          (Ok (if register16 =? 0x16 then 1 else 0xFF), w)).
Proof.
  intros addr s tr. repeat split.
  - eexists. unfold SHT31.get_temperature_humidity. cbn [SHT31._test_mode].
    erewrite bind_ok by apply uniform_run.
    erewrite bind_ok by apply uniform_run.
    rewrite <- app_assoc. reflexivity.
  - eexists. unfold VL6180X.get_distance. cbn [VL6180X._test_mode].
    apply uniform_run.
  - eexists. unfold VL6180X.get_light. cbn [VL6180X._test_mode].
    apply uniform_run.
  - unfold VL6180X.read. cbn [VL6180X._test_mode].
    unfold VL6180X.COMMAND_SYSTEM_FRESH_OUT_OF_RESET.
    destruct (register16 =? 0x16); reflexivity.
Qed.

(** X15: in hardware mode [SHT31.read] returns a value in [[0, 255]] whatever
    the bus answers, and [SHT31.write] sends [value] reduced modulo 256. *)
Theorem byte_access_is_masked :
  forall addr register value (s : T) tr,
    let self := {| SHT31._address := addr; SHT31._test_mode := false |} in
    (forall v w',
        SHT31.read env self register {| env_state := s; trace := tr |} =
          (Ok v, w') -> 0 <= v <= 255) /\
    (exists r s',
        SHT31.write env self register value
          {| env_state := s; trace := tr |} =
          (r, {| env_state := s';
                 trace := tr ++ [EvWriteByteData addr register
                                   (value mod 256)] |}) /\
        env_write_byte_data env addr register (value mod 256) s = (r, s')).
Proof.
  intros addr register value s tr self. split.
  - intros v w' E. unfold SHT31.read in E.
    cbn [SHT31._test_mode SHT31._address self] in E.
    unfold read_byte_data in E.
    destruct (env_read_byte_data env addr register s) as [[b | e] s'] eqn:Hr.
    + erewrite bind_ok in E by (apply call_eq; exact Hr).
      inversion E; subst. rewrite land_255.
      pose proof (Z.mod_pos_bound b 256 eq_refl). lia.
    + erewrite bind_raise in E by (apply call_eq; exact Hr). discriminate E.
  - unfold SHT31.write. cbn [SHT31._test_mode SHT31._address self].
    rewrite land_255.
    destruct (env_write_byte_data env addr register (value mod 256) s)
      as [r s'] eqn:Hw.
    exists r, s'. split; [apply call_eq; exact Hw|reflexivity].
Qed.
End Test_mode_traffic.

(** ** Concrete runs of the further properties *)

Lemma stub_find_none failing n :
  forallb (fun p : nat * exn => Nat.ltb (fst p) n) failing = true ->
  find (fun p : nat * exn => Nat.eqb (fst p) n) failing = None.
Proof.
  induction failing as [|[k e] rest IH]; [reflexivity|].
  cbn [forallb find fst]. intros H.
  apply andb_true_iff in H. destruct H as [Hk Hrest].
  apply Nat.ltb_lt in Hk.
  destruct (Nat.eqb_spec k n); [lia|]. apply IH. exact Hrest.
Qed.

Lemma stub_settled_bump s : stub_settled s -> stub_settled (Stub.bump s).
Proof.
  intros [F B]. split; [|exact B]. cbn [Stub.bump Stub.calls Stub.failing].
  rewrite forallb_forall in F |- *. intros p Hp.
  specialize (F p Hp). apply Nat.ltb_lt in F. apply Nat.ltb_lt. lia.
Qed.

Lemma stub_reliable addr : reliable_from Stub.env addr 0 stub_settled.
Proof.
  split.
  - intros s a r d I. exists (Stub.bump s).
    split; [|apply stub_settled_bump; exact I].
    cbn [env_write_i2c_block_data Stub.env]. unfold Stub.step.
    rewrite (stub_find_none _ _ (proj1 I)). reflexivity.
  - intros s I. pose proof (stub_settled_bump I) as [F' B'].
    destruct I as [F B]. eexists. split.
    + cbn [env_read_byte Stub.env]. unfold Stub.step.
      rewrite (stub_find_none _ _ F).
      unfold Stub.next_byte.
      cbn [Stub.bump Stub.bytes Stub.calls Stub.failing Stub.block Stub.draws].
      rewrite B. reflexivity.
    + split; [exact F'|reflexivity].
Qed.

Lemma short_sample_witness :
  SHT31.get_temperature_humidity Stub.env
    {| SHT31._address := 0x44; SHT31._test_mode := false |}
    (Stub.start (Stub.init [] [0x67; 0x89; 0xAB; 0x80] [])) =
    (Raise IndexError,
     {| env_state := Stub.at_call 2 (Stub.init [] [0x67; 0x89; 0xAB; 0x80] []);
        trace := [] ++ [EvWriteBlock 0x44 0x2C [0x10]; EvSleep (5 # 10);
                        EvReadBlock 0x44 0x00 6] |}).
Proof.
  apply (@short_sample_raises_IndexError_without_retry _ Stub.env 0x44
           (Stub.init [] [0x67; 0x89; 0xAB; 0x80] [])
           (Stub.at_call 1 (Stub.init [] [0x67; 0x89; 0xAB; 0x80] []))
           (Stub.at_call 2 (Stub.init [] [0x67; 0x89; 0xAB; 0x80] []))
           [] [0x67; 0x89; 0xAB; 0x80]);
    [reflexivity | reflexivity | cbn; lia].
Defined.

Lemma plain_driver_witness :
  exists evs,
    SHT31_modified.get_temperature_humidity Stub.env
      {| SHT31_modified._address := 0x44;
         SHT31_modified._test_mode := false |}
      (Stub.start (Stub.init [(1%nat, TimeoutError)] [] [])) =
      (Raise TimeoutError,
       {| env_state := Stub.at_call 2 (Stub.init [(1%nat, TimeoutError)] [] []);
          trace := [] ++ evs |}) /\
    attempts_in evs = 1%nat.
Proof.
  apply (@plain_driver_does_not_retry _ Stub.env 0x44).
  split; [reflexivity|]. right. eexists. split; reflexivity.
Defined.

Lemma two_samples_witness :
  exists t h w1 evs,
    SHT31.get_temperature Stub.env
      {| SHT31._address := 0x44; SHT31._test_mode := false |}
      (Stub.start (Stub.init [] [0x67; 0x89; 0xAB; 0x80; 0x12; 0xCD] [])) =
      (Ok t, w1) /\
    SHT31.get_humidity Stub.env
      {| SHT31._address := 0x44; SHT31._test_mode := false |} w1 =
      (Ok h,
       {| env_state :=
            Stub.at_call 4 (Stub.init [] [0x67; 0x89; 0xAB; 0x80; 0x12; 0xCD] []);
          trace := [] ++ evs |}) /\
    (t == -45 + 175 * inject_Z (0x67 * 256 + 0x89) / 65535)%Q /\
    (h == 100 * inject_Z (0x80 * 256 + 0x12) / 65535)%Q /\
    attempts_in evs = 2%nat.
Proof.
  apply (@temperature_then_humidity_use_two_samples _ Stub.env 0x44
           (Stub.init [] [0x67; 0x89; 0xAB; 0x80; 0x12; 0xCD] [])
           (Stub.at_call 2 (Stub.init [] [0x67; 0x89; 0xAB; 0x80; 0x12; 0xCD] []))
           (Stub.at_call 4 (Stub.init [] [0x67; 0x89; 0xAB; 0x80; 0x12; 0xCD] []))
           [] 0x67 0x89 0xAB 0x80 0x12 0xCD 0x67 0x89 0xAB 0x80 0x12 0xCD);
    eexists; split; reflexivity.
Defined.

Lemma decoded_range_witness :
  exists t h w',
    measure Stub.env Plain 0x44
      (Stub.start (Stub.init [] [0xFF; 0xFF; 0x00; 0x00; 0x00; 0x00] [])) =
      (Ok (Some (t, h)), w') /\
    (-45 <= t /\ t <= 130)%Q /\ (0 <= h /\ h <= 100)%Q.
Proof.
  apply (@decoded_reading_in_sensor_range _ Stub.env Plain 0x44
           (Stub.init [] [0xFF; 0xFF; 0x00; 0x00; 0x00; 0x00] [])
           (Stub.at_call 2 (Stub.init [] [0xFF; 0xFF; 0x00; 0x00; 0x00; 0x00] []))
           [] 0xFF 0xFF 0x00 0x00 0x00 0x00);
    try lia; eexists; split; reflexivity.
Defined.

Lemma write_byte_witness :
  exists a1 a0 d r s',
    VL6180X.write_byte Stub.env
      {| VL6180X._address := 0x29; VL6180X._test_mode := false |}
      0x010A 0x130 (Stub.start (Stub.init [] [] [])) =
      (r, {| env_state := s';
             trace := [] ++ [EvWriteBlock 0x29 a1 [a0; d]] |}) /\
    env_write_i2c_block_data Stub.env 0x29 a1 [a0; d] (Stub.init [] [] []) =
      (r, s') /\
    0 <= a1 <= 255 /\ 0 <= a0 <= 255 /\ a1 * 256 + a0 = 0x010A /\
    d = 0x130 mod 256.
Proof.
  apply (@write_byte_encodes_register _ Stub.env 0x29 0x010A 0x130
           (Stub.init [] [] []) []).
  lia.
Defined.

Lemma write_byte16_witness :
  exists a1 a0 d1 d0 r s',
    VL6180X.write_byte16 Stub.env
      {| VL6180X._address := 0x29; VL6180X._test_mode := false |}
      0x0022 0x017B (Stub.start (Stub.init [] [] [])) =
      (r, {| env_state := s';
             trace := [] ++ [EvWriteBlock 0x29 a1 [a0; d1; d0]] |}) /\
    env_write_i2c_block_data Stub.env 0x29 a1 [a0; d1; d0]
      (Stub.init [] [] []) = (r, s') /\
    a1 * 256 + a0 = 0x0022 /\ d1 * 256 + d0 = 0x017B /\
    0 <= a1 <= 255 /\ 0 <= a0 <= 255 /\ 0 <= d1 <= 255 /\ 0 <= d0 <= 255.
Proof.
  apply (@write_byte16_is_big_endian _ Stub.env 0x29 0x0022 0x017B
           (Stub.init [] [] []) []); lia.
Defined.

Lemma read16_witness :
  exists v w',
    VL6180X.read16 Stub.env
      {| VL6180X._address := 0x29; VL6180X._test_mode := false |}
      0x0050 (Stub.start (Stub.init [] [] [0x0C; 0x80])) = (Ok v, w') /\
    v = 0x0C * 256 + 0x80 /\ 0 <= v <= 65535 /\
    env_state w' = Stub.at_call 3 (Stub.init [] [] []).
Proof.
  apply (@read16_is_big_endian _ Stub.env 0x29 0x0050
           (Stub.init [] [] [0x0C; 0x80])
           (Stub.at_call 1 (Stub.init [] [] [0x0C; 0x80]))
           (Stub.at_call 2 (Stub.init [] [] [0x80]))
           (Stub.at_call 3 (Stub.init [] [] [])) [] 0x0C 0x80);
    try lia; reflexivity.
Defined.

Lemma construction_on_reliable_bus_witness :
  exists w',
    VL6180X.__init__ Stub.env 0x29 false (Stub.start (Stub.init [] [] [])) =
      (Ok {| VL6180X._address := 0x29; VL6180X._test_mode := false |}, w') /\
    trace w' = [] ++ [EvOpen 1] ++
               init_attempt_events 0x29 (0 =? 1) ++ trailing_events 0x29 /\
    stub_settled (env_state w') /\
    count is_block_write
      (init_attempt_events 0x29 (0 =? 1) ++ trailing_events 0x29) =
      (if 0 =? 1 then 47%nat else 17%nat).
Proof.
  apply (@construction_on_reliable_bus _ Stub.env 0x29 0 stub_settled
           (Stub.init [] [] []) (Stub.at_call 1 (Stub.init [] [] [])) []).
  - apply stub_reliable.
  - reflexivity.
  - split; reflexivity.
Defined.

Lemma construction_retry_witness :
  exists w',
    VL6180X.__init__ Stub.env 0x29 false
      (Stub.start (Stub.init [(2%nat, OSError 121)] [] [])) =
      (Ok {| VL6180X._address := 0x29; VL6180X._test_mode := false |}, w') /\
    trace w' = [] ++ [EvOpen 1] ++
               failed_reset_check_events 0x29 true ++
               [EvSleep (5 # 10)] ++
               init_attempt_events 0x29 (0 =? 1) ++ trailing_events 0x29.
Proof.
  apply (@construction_retries_failed_reset_check _ Stub.env 0x29 0
           stub_settled
           (Stub.init [(2%nat, OSError 121)] [] [])
           (Stub.at_call 1 (Stub.init [(2%nat, OSError 121)] [] []))
           (Stub.at_call 3 (Stub.init [(2%nat, OSError 121)] [] []))
           (OSError 121) true []).
  - apply stub_reliable.
  - reflexivity.
  - split; [reflexivity|]. eexists. split; reflexivity.
  - split; reflexivity.
Defined.

Lemma construction_gives_up_witness :
  VL6180X.__init__ Stub.env 0x29 false
    (Stub.start (Stub.init [(1%nat, OSError 121); (3%nat, TimeoutError);
                            (4%nat, OSError 5)] [] [])) =
    (Raise (OSError 5),
     {| env_state :=
          Stub.at_call 5 (Stub.init [(1%nat, OSError 121); (3%nat, TimeoutError);
                                     (4%nat, OSError 5)] [] []);
        trace := [] ++ [EvOpen 1] ++
                 failed_reset_check_events 0x29 false ++ [EvSleep (5 # 10)] ++
                 failed_reset_check_events 0x29 true ++ [EvSleep (5 # 10)] ++
                 failed_reset_check_events 0x29 false |}).
Proof.
  apply (@construction_gives_up_after_three_reset_checks _ Stub.env 0x29
           (Stub.init [(1%nat, OSError 121); (3%nat, TimeoutError);
                       (4%nat, OSError 5)] [] [])
           (Stub.at_call 1 (Stub.init [(1%nat, OSError 121); (3%nat, TimeoutError);
                                       (4%nat, OSError 5)] [] []))
           (Stub.at_call 2 (Stub.init [(1%nat, OSError 121); (3%nat, TimeoutError);
                                       (4%nat, OSError 5)] [] []))
           (Stub.at_call 4 (Stub.init [(1%nat, OSError 121); (3%nat, TimeoutError);
                                       (4%nat, OSError 5)] [] []))
           (Stub.at_call 5 (Stub.init [(1%nat, OSError 121); (3%nat, TimeoutError);
                                       (4%nat, OSError 5)] [] []))
           (OSError 121) TimeoutError (OSError 5) false true false []).
  - reflexivity.
  - split; reflexivity.
  - split; [reflexivity|]. eexists. split; reflexivity.
  - split; reflexivity.
Defined.

Lemma get_light_read_error_witness :
  VL6180X.get_light Stub.env
    {| VL6180X._address := 0x29; VL6180X._test_mode := false |}
    (Stub.start (Stub.init [(3%nat, OSError 5)] [] [0x0C; 0x80])) =
    (Raise (OSError 5),
     {| env_state := Stub.at_call 4 (Stub.init [(3%nat, OSError 5)] [] [0x80]);
        trace := [] ++ [EvWriteBlock 0x29 0x00 [0x38; 0x01]; EvSleep (5 # 10);
                        EvWriteBlock 0x29 0x00 [0x50]; EvReadByte 0x29;
                        EvReadByte 0x29] |}).
Proof.
  apply (@get_light_propagates_read_error _ Stub.env 0x29
           (Stub.init [(3%nat, OSError 5)] [] [0x0C; 0x80])
           (Stub.at_call 1 (Stub.init [(3%nat, OSError 5)] [] [0x0C; 0x80]))
           (Stub.at_call 2 (Stub.init [(3%nat, OSError 5)] [] [0x0C; 0x80]))
           (Stub.at_call 3 (Stub.init [(3%nat, OSError 5)] [] [0x80]))
           (Stub.at_call 4 (Stub.init [(3%nat, OSError 5)] [] [0x80]))
           [] 0x0C (OSError 5));
    reflexivity.
Defined.

(** ** The debug entry points *)

Section Debug.
Context {T : Type} (env : Env T).

(** X16: when the bus cannot be opened, [SHT31.debug] lets the error escape
    (the driver is built before its [try]), whereas [VL6180.debug] catches it
    and returns (the driver is built inside its [try]). *)
Theorem debug_open_failure :
  forall interval fuel (s s' : T) e tr,
    env_open env 1 s = (Raise e, s') ->
    SHT31.debug env interval false fuel {| env_state := s; trace := tr |} =
      (Raise e, {| env_state := s'; trace := tr ++ [EvOpen 1] |}) /\
    VL6180X.debug env interval false fuel {| env_state := s; trace := tr |} =
      (Ok tt, {| env_state := s'; trace := tr ++ [EvOpen 1] |}).
Proof.
  intros interval fuel s s' e tr Hopen. split.
  - unfold SHT31.debug, SHT31.__init__. cbn [negb].
    erewrite bind_raise; [reflexivity|].
    erewrite bind_raise by (apply call_eq; exact Hopen). reflexivity.
  - unfold VL6180X.debug, try_except_Exception, VL6180X.__init__. cbn [negb].
    erewrite bind_raise; [reflexivity|].
    erewrite bind_raise by (apply call_eq; exact Hopen). reflexivity.
Qed.

(** X17: [SHT31.debug] ends, without raising, at the first reading that
    fails: with the bus open and three failed attempts it returns normally
    after exactly those three measurement commands. *)
Theorem debug_stops_at_first_failed_reading :
  forall interval fuel (s s0 s1 s2 s3 : T) e1 e2 e3 tr,
    env_open env 1 s = (Ok tt, s0) ->
    attempt_fails env SHT31.ADDRESS [0x10] s0 e1 s1 ->
    attempt_fails env SHT31.ADDRESS [0x10] s1 e2 s2 ->
    attempt_fails env SHT31.ADDRESS [0x10] s2 e3 s3 ->
    exists evs,
      SHT31.debug env interval false (S fuel)
        {| env_state := s; trace := tr |} =
        (Ok tt, {| env_state := s3; trace := tr ++ [EvOpen 1] ++ evs |}) /\
      attempts_in evs = 3%nat.
Proof.
  intros interval fuel s s0 s1 s2 s3 e1 e2 e3 tr Hopen F1 F2 F3.
  destruct (failure_after_three (tr ++ [EvOpen 1]) F1 F2 F3) as (evs & E & N).
  exists evs. split; [|exact N].
  unfold SHT31.debug, SHT31.__init__. cbn [negb].
  erewrite bind_ok.
  2:{ erewrite bind_ok by (apply call_eq; exact Hopen). reflexivity. }
  unfold try_except_Exception. cbn [SHT31.debug_loop].
  erewrite bind_raise by exact E.
  rewrite <- app_assoc. reflexivity.
Qed.


End Debug.

Lemma debug_open_failure_witness :
  SHT31.debug Stub.env 10 false 5
    (Stub.start (Stub.init [(0%nat, OSError 2)] [] [])) =
    (Raise (OSError 2),
     {| env_state := Stub.at_call 1 (Stub.init [(0%nat, OSError 2)] [] []);
        trace := [] ++ [EvOpen 1] |}) /\
  VL6180X.debug Stub.env 10 false 5
    (Stub.start (Stub.init [(0%nat, OSError 2)] [] [])) =
    (Ok tt,
     {| env_state := Stub.at_call 1 (Stub.init [(0%nat, OSError 2)] [] []);
        trace := [] ++ [EvOpen 1] |}).
Proof.
  apply (@debug_open_failure _ Stub.env 10 5
           (Stub.init [(0%nat, OSError 2)] [] [])).
  reflexivity.
Defined.

Lemma debug_stops_witness :
  exists evs,
    SHT31.debug Stub.env 10 false 3
      (Stub.start (Stub.init [(1%nat, OSError 5); (2%nat, OSError 5);
                              (3%nat, OSError 5)] [] [])) =
      (Ok tt,
       {| env_state :=
            Stub.at_call 4 (Stub.init [(1%nat, OSError 5); (2%nat, OSError 5);
                                       (3%nat, OSError 5)] [] []);
          trace := [] ++ [EvOpen 1] ++ evs |}) /\
    attempts_in evs = 3%nat.
Proof.
  apply (@debug_stops_at_first_failed_reading _ Stub.env 10 2
           (Stub.init [(1%nat, OSError 5); (2%nat, OSError 5);
                       (3%nat, OSError 5)] [] [])
           (Stub.at_call 1 (Stub.init [(1%nat, OSError 5); (2%nat, OSError 5);
                                       (3%nat, OSError 5)] [] []))
           (Stub.at_call 2 (Stub.init [(1%nat, OSError 5); (2%nat, OSError 5);
                                       (3%nat, OSError 5)] [] []))
           (Stub.at_call 3 (Stub.init [(1%nat, OSError 5); (2%nat, OSError 5);
                                       (3%nat, OSError 5)] [] []))
           (Stub.at_call 4 (Stub.init [(1%nat, OSError 5); (2%nat, OSError 5);
                                       (3%nat, OSError 5)] [] []))
           (OSError 5) (OSError 5) (OSError 5) []);
    [reflexivity | | | ]; (split; [reflexivity|left; reflexivity]).
Defined.
